(** * litestar-oauth: data types, plugin configuration and the state-token
      lifecycle, embedded in Rocq.

    Sources embedded here:
    - [src/litestar_oauth/types.py]: [OAuthUserInfo], [OAuthToken],
      [OAuthState] (both the msgspec and the dataclass branch);
    - [src/litestar_oauth/contrib/litestar/config.py]: [OAuthConfig] and
      [get_configured_providers];
    - [tests/unit/test_base.py]: the table and the check of
      [test_configuration_validation];
    - [tests/conftest.py]: the hook [pytest_collection_modifyitems];
    - [scripts/validate_tests.py]: [count_test_functions],
      [count_test_classes], [validate_test_structure], the exit status of
      [main] and the status line of [print_validation_results].

    The state store and the login orchestration of the specification
    (sections 4.1 and 4.4) have no source file in the tree covered here
    (the tests import them from [litestar_oauth.testing.mocks]); they are
    modelled from the specification in [StateStore] and [Orchestrator].

    Conventions.
    - [str | None] is [option string]; [int | None] is [option Z].
    - A [datetime] is an integer count of microseconds since
      0001-01-01T00:00:00 UTC and a [timedelta] is an integer count of
      microseconds.  Python's [datetime] ends with 9999-12-31T23:59:59.999999
      and its [timedelta] spans 999999999 days either way; arithmetic that
      leaves these ranges raises [OverflowError], here as in the code.
    - [datetime.now(timezone.utc)] is a read of the clock: every function
      whose source reads the clock takes the value read as an argument
      [now].
    - A [dict] used as a mapping is a [gmap]. *)

From Stdlib Require Import ZArith Ascii String.
From stdpp Require Import gmap strings list fin_maps.

Local Open Scope Z_scope.

(** ** Python values and exceptions *)

Module Py.

(** Opaque payload values ([Any] in [dict[str, Any]]). *)
Inductive value : Type :=
| VNone
| VBool (b : bool)
| VInt (z : Z)
| VStr (s : string).

Inductive exn : Type :=
| TypeError
| AttributeError
| FrozenInstanceError
| OverflowError.

(** Truth value of a [str | None]: [None] and the empty string are
    false, every other string is true. *)
Definition truthy (o : option string) : bool :=
  match o with
  | None => false
  | Some s => bool_decide (s ≠ "")
  end.

(** [a or b] on [str | None] operands: [a] when [a] is true, else [b]. *)
Definition or_ (a b : option string) : option string :=
  if truthy a then a else b.

(** What an f-string replacement field prints for a [str | None]. *)
Definition fmt (o : option string) : string :=
  match o with
  | None => "None"
  | Some s => s
  end.

Definition datetime : Type := Z.
Definition timedelta : Type := Z.

(** [date.max.toordinal()]: the number of days from 0001-01-01 to
    9999-12-31, both included. *)
Definition MAXORDINAL : Z := 3652059.

(** The values a [datetime] can hold: from 0001-01-01T00:00:00 up to the
    last microsecond of 9999-12-31. *)
Definition datetime_in_range (d : Z) : bool :=
  (0 <=? d) && (d <? MAXORDINAL * 86400 * 1000000).

(** [timedelta(seconds=n)] for an integer [n]: the constructor normalises
    to days and seconds and raises [OverflowError] when the number of days
    has a magnitude above 999999999. *)
Definition timedelta_seconds (n : Z) : exn + timedelta :=
  let days := n / 86400 in
  if Z.abs days <=? 999999999 then inr (n * 1000000) else inl OverflowError.

(** [d + td]: raises [OverflowError] when the sum is not a [datetime]. *)
Definition datetime_add (d : datetime) (td : timedelta) : exn + datetime :=
  if datetime_in_range (d + td) then inr (d + td) else inl OverflowError.

End Py.

(** ** [types.py] *)

Module Types.
Import Py.

(** *** Class options

    The msgspec branch declares every class with
    [frozen=True, kw_only=True]; the dataclass branch builds
    [_dataclass_kwargs] in three steps and passes it to [@dataclass]. *)

Definition msgspec_struct_kwargs : gmap string bool :=
  <["kw_only" := true]> (<["frozen" := true]> ∅).

Definition _dataclass_kwargs : gmap string bool :=
  let kw := <["frozen" := true]> ∅ in
  let kw := <["slots" := true]> kw in
  let kw := <["kw_only" := true]> kw in
  kw.

Inductive class_name : Type := COAuthUserInfo | COAuthToken | COAuthState.

(** The options the class statement of [c] is given; [HAS_MSGSPEC] selects
    the branch of the module.  All three classes of a branch receive the
    same options. *)
Definition class_kwargs (HAS_MSGSPEC : bool) (c : class_name) : gmap string bool :=
  if HAS_MSGSPEC then msgspec_struct_kwargs else _dataclass_kwargs.

(** An option that is not given is off. *)
Definition option_on (kw : gmap string bool) (name : string) : bool :=
  default false (kw !! name).

(** [self.name = v].  A frozen class refuses every assignment: the
    dataclass [__setattr__] raises [FrozenInstanceError], the msgspec one
    raises [AttributeError].  Otherwise the assignment goes to the slot
    store [store] of the class, which may itself refuse it.  The second
    component is the instance after the statement. *)
Definition setattr {T : Type} (HAS_MSGSPEC : bool) (kw : gmap string bool)
    (store : string → value → T → exn + T)
    (self : T) (name : string) (v : value) : (exn + unit) * T :=
  if option_on kw "frozen" then
    (inl (if HAS_MSGSPEC then AttributeError else FrozenInstanceError), self)
  else
    match store name v self with
    | inl e => (inl e, self)
    | inr self' => (inr tt, self')
    end.

(** *** OAuthUserInfo *)

Record OAuthUserInfo : Type := {
  provider : string;
  oauth_id : string;
  email : option string;
  email_verified : bool;
  username : option string;
  first_name : option string;
  last_name : option string;
  avatar_url : option string;
  profile_url : option string;
  raw_data : gmap string value;
}.

(** Keyword arguments of the constructor; [None] is a keyword that was
    not passed (for the [str | None = None] fields, passing [None] and
    not passing the keyword are the same). *)
Record OAuthUserInfo_kwargs : Type := {
  kw_provider : option string;
  kw_oauth_id : option string;
  kw_email : option string;
  kw_email_verified : option bool;
  kw_username : option string;
  kw_first_name : option string;
  kw_last_name : option string;
  kw_avatar_url : option string;
  kw_profile_url : option string;
  kw_raw_data : option (gmap string value);
}.

(** The generated [__init__]: [provider] and [oauth_id] have no default,
    so leaving one out is a [TypeError]; nothing else is checked. *)
Definition OAuthUserInfo_init (kw : OAuthUserInfo_kwargs) : exn + OAuthUserInfo :=
  match kw_provider kw, kw_oauth_id kw with
  | Some p, Some i =>
      inr {| provider := p;
             oauth_id := i;
             email := kw_email kw;
             email_verified := default false (kw_email_verified kw);
             username := kw_username kw;
             first_name := kw_first_name kw;
             last_name := kw_last_name kw;
             avatar_url := kw_avatar_url kw;
             profile_url := kw_profile_url kw;
             raw_data := default ∅ (kw_raw_data kw) |}
  | _, _ => inl TypeError
  end.

(** The [full_name] property. *)
Definition full_name (self : OAuthUserInfo) : option string :=
  if truthy (first_name self) && truthy (last_name self) then
    Some (fmt (first_name self) +:+ " " +:+ fmt (last_name self))
  else
    or_ (first_name self) (last_name self).

(** *** OAuthToken *)

Record OAuthToken : Type := {
  access_token : string;
  token_type : string;
  expires_in : option Z;
  refresh_token : option string;
  scope : option string;
  id_token : option string;
  raw_response : gmap string value;
}.

Record OAuthToken_kwargs : Type := {
  kw_access_token : option string;
  kw_token_type : option string;
  kw_expires_in : option Z;
  kw_refresh_token : option string;
  kw_scope : option string;
  kw_id_token : option string;
  kw_raw_response : option (gmap string value);
}.

(** The generated [__init__]; it does not read the clock and the class
    has no field that records when the instance was built. *)
Definition OAuthToken_init (kw : OAuthToken_kwargs) : exn + OAuthToken :=
  match kw_access_token kw with
  | Some a =>
      inr {| access_token := a;
             token_type := default "Bearer" (kw_token_type kw);
             expires_in := kw_expires_in kw;
             refresh_token := kw_refresh_token kw;
             scope := kw_scope kw;
             id_token := kw_id_token kw;
             raw_response := default ∅ (kw_raw_response kw) |}
  | None => inl TypeError
  end.

(** The [expires_at] property; [now] is what [datetime.now(timezone.utc)]
    returns when the property is read.  The result is [None], a
    [datetime], or the [OverflowError] of [timedelta(seconds=...)] or of
    the addition. *)
Definition expires_at (self : OAuthToken) (now : datetime) : exn + option datetime :=
  match expires_in self with
  | None => inr None
  | Some n =>
      match timedelta_seconds n with
      | inl e => inl e
      | inr td =>
          match datetime_add now td with
          | inl e => inl e
          | inr d => inr (Some d)
          end
      end
  end.

(** *** OAuthState *)

Record OAuthState : Type := {
  state : string;
  st_provider : string;
  redirect_uri : string;
  created_at : datetime;
  next_url : option string;
  extra_data : gmap string value;
}.

Record OAuthState_kwargs : Type := {
  kw_state : option string;
  kw_st_provider : option string;
  kw_redirect_uri : option string;
  kw_created_at : option datetime;
  kw_next_url : option string;
  kw_extra_data : option (gmap string value);
}.

(** The generated [__init__]; the default factory of [created_at] reads
    the clock ([now]) when the keyword is not passed. *)
Definition OAuthState_init (kw : OAuthState_kwargs) (now : datetime) : exn + OAuthState :=
  match kw_state kw, kw_st_provider kw, kw_redirect_uri kw with
  | Some s, Some p, Some r =>
      inr {| state := s;
             st_provider := p;
             redirect_uri := r;
             created_at := default now (kw_created_at kw);
             next_url := kw_next_url kw;
             extra_data := default ∅ (kw_extra_data kw) |}
  | _, _, _ => inl TypeError
  end.

End Types.

(** ** [contrib/litestar/config.py] *)

Module Config.
Import Py.

Record OAuthConfig : Type := {
  redirect_base_url : string;
  route_prefix : string;
  success_redirect : string;
  failure_redirect : string;
  state_ttl : Z;
  enabled_providers : option (list string);
  github_client_id : option string;
  github_client_secret : option string;
  github_scope : string;
  google_client_id : option string;
  google_client_secret : option string;
  google_scope : string;
  discord_client_id : option string;
  discord_client_secret : option string;
  discord_scope : string;
}.

(** The dataclass defaults: only [redirect_base_url] is required. *)
Definition OAuthConfig_default (redirect_base_url : string) : OAuthConfig :=
  {| redirect_base_url := redirect_base_url;
     route_prefix := "/auth";
     success_redirect := "/dashboard";
     failure_redirect := "/login?error=oauth";
     state_ttl := 600;
     enabled_providers := None;
     github_client_id := None;
     github_client_secret := None;
     github_scope := "read:user user:email";
     google_client_id := None;
     google_client_secret := None;
     google_scope := "openid email profile";
     discord_client_id := None;
     discord_client_secret := None;
     discord_scope := "identify email" |}.

(** The dict literal
    [{"client_id": ..., "client_secret": ..., "scope": ...}]. *)
Definition provider_dict (client_id client_secret scope : string) : gmap string string :=
  <["scope" := scope]> (<["client_secret" := client_secret]> (<["client_id" := client_id]> ∅)).

(** One [if self.X_client_id and self.X_client_secret: providers[X] = {...}]
    statement. *)
Definition add_if_configured (name : string) (client_id client_secret : option string)
    (scope : string) (providers : gmap string (gmap string string))
    : gmap string (gmap string string) :=
  match client_id, client_secret with
  | Some cid, Some sec =>
      if truthy (Some cid) && truthy (Some sec) then
        <[name := provider_dict cid sec scope]> providers
      else providers
  | _, _ => providers
  end.

Definition get_configured_providers (self : OAuthConfig) : gmap string (gmap string string) :=
  let providers := ∅ in
  (* GitHub *)
  let providers :=
    add_if_configured "github" (github_client_id self) (github_client_secret self)
      (github_scope self) providers in
  (* Google *)
  let providers :=
    add_if_configured "google" (google_client_id self) (google_client_secret self)
      (google_scope self) providers in
  (* Discord *)
  let providers :=
    add_if_configured "discord" (discord_client_id self) (discord_client_secret self)
      (discord_scope self) providers in
  (* Filter by enabled_providers if specified *)
  match enabled_providers self with
  | Some enabled => filter (λ kv, kv.1 ∈ enabled) providers
  | None => providers
  end.

End Config.

(** ** The state store (specification, section 4.1) *)

Module StateStore.
Import Py.

(** Modelled from the spec: the [StateRecord] of section 3; the class that
    implements the state store (the tests import it from
    [litestar_oauth.testing.mocks]) is not among the sources. *)
Record StateRecord : Type := {
  token : string;
  provider : string;
  redirectURI : string;
  createdAt : datetime;
  expiresAt : datetime;
  nextURL : option string;
  extra : gmap string value;
}.

(** Modelled from the spec: [createdAt + TTL], the instant [seconds]
    seconds after [t] on the specification's time line (which has no
    end). *)
Definition plus_seconds (t : datetime) (seconds : Z) : datetime :=
  t + seconds * 1000000.

(** Modelled from the spec: the store, absent from the sources.  It holds
    the configured default TTL (seconds) and the live records keyed by
    their token. *)
Record t : Type := {
  default_ttl : Z;
  records : gmap string StateRecord;
}.

Definition with_records (s : t) (m : gmap string StateRecord) : t :=
  {| default_ttl := default_ttl s; records := m |}.

(** Modelled from the spec: [Create], absent from the sources.  [nonce] is
    the string drawn from the random generator and [now] the clock; the
    record gets [createdAt = now] and [expiresAt = now + ttlSeconds], is
    stored under the token, and the token is returned. *)
Definition Create (nonce : string) (now : datetime)
    (provider redirectURI : string) (ttlSeconds : option Z)
    (nextURL : option string) (extra : gmap string value) (s : t) : string * t :=
  let ttl := default (default_ttl s) ttlSeconds in
  let rec := {| token := nonce;
                provider := provider;
                redirectURI := redirectURI;
                createdAt := now;
                expiresAt := plus_seconds now ttl;
                nextURL := nextURL;
                extra := extra |} in
  (nonce, with_records s (<[nonce := rec]> (records s))).

(** Modelled from the spec: [Validate], absent from the sources.  Absent
    token: not-found, store untouched.  Present with [now > expiresAt]:
    the record is deleted and the answer is not-found.  Otherwise the
    record is deleted and returned. *)
Definition Validate (now : datetime) (tok : string) (s : t) : option StateRecord * t :=
  match records s !! tok with
  | None => (None, s)
  | Some rec =>
      if bool_decide (now > expiresAt rec) then
        (None, with_records s (delete tok (records s)))
      else
        (Some rec, with_records s (delete tok (records s)))
  end.

(** A call on the store, for sequences of calls. *)
Inductive op : Type :=
| OpCreate (nonce : string) (now : datetime) (provider redirectURI : string)
    (ttlSeconds : option Z) (nextURL : option string) (extra : gmap string value)
| OpValidate (now : datetime) (tok : string).

Definition op_token (o : op) : string :=
  match o with
  | OpCreate nonce _ _ _ _ _ _ => nonce
  | OpValidate _ tok => tok
  end.

Definition is_create (o : op) : bool :=
  match o with
  | OpCreate _ _ _ _ _ _ _ => true
  | OpValidate _ _ => false
  end.

Definition step (o : op) (s : t) : t :=
  match o with
  | OpCreate nonce now p r ttl n e => (Create nonce now p r ttl n e s).2
  | OpValidate now tok => (Validate now tok s).2
  end.

(** The calls of [ops] in order, first call first. *)
Definition run (ops : list op) (s : t) : t := foldl (λ acc o, step o acc) s ops.

End StateStore.

(** ** The orchestrator (specification, sections 4.2 and 4.4) *)

Module Orchestrator.
Import Py.

(** Modelled from the spec: the error taxonomy of section 7; the module
    [litestar_oauth.exceptions] is not among the sources. *)
Inductive OAuthError : Type :=
| InvalidProviderError
| ProviderNotConfiguredError
| StateValidationError
| TokenExchangeError (status : option Z) (body : option string)
| TokenRefreshError
| UserInfoError (status : option Z).

(** Modelled from the spec: the [ProviderClient] contract of section 4.2,
    absent from the sources ([providers/__init__.py] only re-exports the
    vendor classes).  The answers of the vendor's endpoints are functions
    of the request. *)
Record ProviderClient : Type := {
  name : string;
  clientID : option string;
  clientSecret : option string;
  exchangeCode : string → string → OAuthError + Types.OAuthToken;
  fetchUserInfo : string → OAuthError + gmap string value;
  normalize : gmap string value → OAuthError + Types.OAuthUserInfo;
}.

(** Modelled from the spec: [isConfigured], true iff both [clientID] and
    [clientSecret] are non-empty strings. *)
Definition isConfigured (c : ProviderClient) : bool :=
  truthy (clientID c) && truthy (clientSecret c).

(** A request sent to a vendor. *)
Inductive net_call : Type :=
| CallExchange (provider code redirectURI : string)
| CallUserInfo (provider accessToken : string).

(** Modelled from the spec: the orchestrator's state, absent from the
    sources: the provider registry, the state store, and the requests sent
    so far (most recent first). *)
Record world : Type := {
  registry : gmap string ProviderClient;
  store : StateStore.t;
  sent : list net_call;
}.

Definition with_store (w : world) (s : StateStore.t) : world :=
  {| registry := registry w; store := s; sent := sent w |}.

Definition send (c : net_call) (w : world) : world :=
  {| registry := registry w; store := store w; sent := c :: sent w |}.

(** Modelled from the spec: [CompleteLogin], absent from the sources.  The
    state is validated (and consumed) first; an unknown, expired or
    consumed token, or a record whose provider is not [providerName],
    fails with [StateValidationError].  Then the provider is looked up and
    [exchangeCode], [fetchUserInfo] and the normalizer run in this order,
    their errors passed on unchanged. *)
Definition CompleteLogin (providerName code state : string) (now : datetime)
    (w : world) : (OAuthError + Types.OAuthUserInfo * Types.OAuthToken) * world :=
  let '(found, s') := StateStore.Validate now state (store w) in
  let w := with_store w s' in
  match found with
  | None => (inl StateValidationError, w)
  | Some rec =>
      if bool_decide (StateStore.provider rec = providerName) then
        match registry w !! providerName with
        | None => (inl InvalidProviderError, w)
        | Some client =>
            if isConfigured client then
              let w := send (CallExchange providerName code (StateStore.redirectURI rec)) w in
              match exchangeCode client code (StateStore.redirectURI rec) with
              | inl e => (inl e, w)
              | inr tok =>
                  let w := send (CallUserInfo providerName (Types.access_token tok)) w in
                  match fetchUserInfo client (Types.access_token tok) with
                  | inl e => (inl e, w)
                  | inr raw =>
                      match normalize client raw with
                      | inl e => (inl e, w)
                      | inr user => (inr (user, tok), w)
                      end
                  end
              end
            else (inl ProviderNotConfiguredError, w)
        end
      else (inl StateValidationError, w)
  end.

End Orchestrator.

(** ** The statements of the specification that the code is compared with *)

Module Claimed.

(** The specification's [fullName]: [firstName + " " + lastName] if both
    are present, else whichever is present, else absent. *)
Definition full_name (u : Types.OAuthUserInfo) : option string :=
  match Types.first_name u, Types.last_name u with
  | Some f, Some l => Some (f +:+ " " +:+ l)
  | Some f, None => Some f
  | None, Some l => Some l
  | None, None => None
  end.

(** The specification's invariant on a constructed user record. *)
Definition ids_non_empty (u : Types.OAuthUserInfo) : Prop :=
  Types.provider u ≠ "" ∧ Types.oauth_id u ≠ "".

(** The specification's [expiresAt]: issuance time plus [expiresIn],
    whatever the clock says when it is read. *)
Definition expires_at (built : Py.datetime) (tok : Types.OAuthToken) : option Py.datetime :=
  match Types.expires_in tok with
  | None => None
  | Some n => Some (built + n * 1000000)
  end.

(** The three providers the configuration knows, with the fields that
    hold their credentials and scope. *)
Definition settings (cfg : Config.OAuthConfig) (name : string)
    : option (option string * option string * string) :=
  if bool_decide (name = "github") then
    Some (Config.github_client_id cfg, Config.github_client_secret cfg, Config.github_scope cfg)
  else if bool_decide (name = "google") then
    Some (Config.google_client_id cfg, Config.google_client_secret cfg, Config.google_scope cfg)
  else if bool_decide (name = "discord") then
    Some (Config.discord_client_id cfg, Config.discord_client_secret cfg, Config.discord_scope cfg)
  else None.

(** [name] passes the [enabled_providers] setting. *)
Definition enabled (cfg : Config.OAuthConfig) (name : string) : Prop :=
  match Config.enabled_providers cfg with
  | None => True
  | Some names => name ∈ names
  end.

End Claimed.

(** ** Concrete inputs *)

Module Samples.
Import Types.

Definition user (first last : option string) : OAuthUserInfo_kwargs :=
  {| kw_provider := Some "github"; kw_oauth_id := Some "12345678";
     kw_email := None; kw_email_verified := None; kw_username := None;
     kw_first_name := first; kw_last_name := last;
     kw_avatar_url := None; kw_profile_url := None; kw_raw_data := None |}.

Definition built_user (first last : option string) : OAuthUserInfo :=
  {| provider := "github"; oauth_id := "12345678";
     email := None; email_verified := false; username := None;
     first_name := first; last_name := last;
     avatar_url := None; profile_url := None; raw_data := ∅ |}.

(** [OAuthUserInfo(provider="", oauth_id="")]. *)
Definition anonymous : OAuthUserInfo_kwargs :=
  {| kw_provider := Some ""; kw_oauth_id := Some "";
     kw_email := None; kw_email_verified := None; kw_username := None;
     kw_first_name := None; kw_last_name := None;
     kw_avatar_url := None; kw_profile_url := None; kw_raw_data := None |}.

Definition built_anonymous : OAuthUserInfo :=
  {| provider := ""; oauth_id := "";
     email := None; email_verified := false; username := None;
     first_name := None; last_name := None;
     avatar_url := None; profile_url := None; raw_data := ∅ |}.

(** [OAuthToken(access_token="test", expires_in=n)]. *)
Definition token (n : option Z) : OAuthToken_kwargs :=
  {| kw_access_token := Some "test"; kw_token_type := None;
     kw_expires_in := n; kw_refresh_token := None; kw_scope := None;
     kw_id_token := None; kw_raw_response := None |}.

Definition built_token (n : option Z) : OAuthToken :=
  {| access_token := "test"; token_type := "Bearer";
     expires_in := n; refresh_token := None; scope := None;
     id_token := None; raw_response := ∅ |}.

(** A clock reading, in seconds after the epoch. *)
Definition at_second (s : Z) : Py.datetime := s * 1000000.

(** A configuration with credentials for all three providers and the
    given [enabled_providers]. *)
Definition config (enabled : option (list string)) : Config.OAuthConfig :=
  {| Config.redirect_base_url := "https://example.com";
     Config.route_prefix := "/auth";
     Config.success_redirect := "/dashboard";
     Config.failure_redirect := "/login?error=oauth";
     Config.state_ttl := 600;
     Config.enabled_providers := enabled;
     Config.github_client_id := Some "gh-id";
     Config.github_client_secret := Some "gh-secret";
     Config.github_scope := "read:user user:email";
     Config.google_client_id := Some "go-id";
     Config.google_client_secret := Some "go-secret";
     Config.google_scope := "openid email profile";
     Config.discord_client_id := Some "di-id";
     Config.discord_client_secret := Some "di-secret";
     Config.discord_scope := "identify email" |}.

(** An empty state store with the default TTL of 600 seconds. *)
Definition empty_store : StateStore.t :=
  {| StateStore.default_ttl := 600; StateStore.records := ∅ |}.

(** A stub vendor that answers every request with a fixed token and
    profile. *)
Definition stub_client (name : string) : Orchestrator.ProviderClient :=
  {| Orchestrator.name := name;
     Orchestrator.clientID := Some "id";
     Orchestrator.clientSecret := Some "secret";
     Orchestrator.exchangeCode := λ _ _, inr (built_token (Some 3600));
     Orchestrator.fetchUserInfo := λ _, inr ∅;
     Orchestrator.normalize := λ _, inr (built_user None None) |}.

(** An orchestrator with [github] and [google] registered, after
    [Create] issued the token ["nonce-1"] for [github] at second 1000. *)
Definition world_after_begin : Orchestrator.world :=
  {| Orchestrator.registry :=
       <["google" := stub_client "google"]> (<["github" := stub_client "github"]> ∅);
     Orchestrator.store :=
       (StateStore.Create "nonce-1" (at_second 1000) "github" "http://localhost/cb"
          None None ∅ empty_store).2;
     Orchestrator.sent := [] |}.

End Samples.

(** ** More of [config.py] and [types.py]: helpers for statements *)

Module ConfigOps.
Import Config.

(** [dataclasses.replace(cfg, enabled_providers=e)]: the configuration [cfg]
    with another [enabled_providers] setting. *)
Definition with_enabled (cfg : OAuthConfig) (e : option (list string)) : OAuthConfig :=
  {| redirect_base_url := redirect_base_url cfg;
     route_prefix := route_prefix cfg;
     success_redirect := success_redirect cfg;
     failure_redirect := failure_redirect cfg;
     state_ttl := state_ttl cfg;
     enabled_providers := e;
     github_client_id := github_client_id cfg;
     github_client_secret := github_client_secret cfg;
     github_scope := github_scope cfg;
     google_client_id := google_client_id cfg;
     google_client_secret := google_client_secret cfg;
     google_scope := google_scope cfg;
     discord_client_id := discord_client_id cfg;
     discord_client_secret := discord_client_secret cfg;
     discord_scope := discord_scope cfg |}.

(** [list(d)]: the keys of a dictionary. *)
Definition keys (d : gmap string (gmap string string)) : list string :=
  (map_to_list d).*1.

End ConfigOps.

(** ** Python strings *)

Module PyStr.

(** [s.startswith(p)]. *)
Definition startswith (s p : string) : bool := String.prefix p s.

(** [sub in s]: [sub] occurs in [s] at some position. *)
Fixpoint contains (sub s : string) : bool :=
  String.prefix sub s ||
  match s with
  | EmptyString => false
  | String _ s' => contains sub s'
  end.

(** [s.rfind(".")], counting positions from [i]; [last] is the last
    position seen so far. *)
Fixpoint rfind_dot (s : string) (i : nat) (last : option nat) : option nat :=
  match s with
  | EmptyString => last
  | String c s' => rfind_dot s' (S i) (if Ascii.eqb c ("."%char : Ascii.ascii) then Some i else last)
  end.

End PyStr.

(** ** [tests/unit/test_base.py]: the configuration table *)

Module TestBase.

(** [a and b] on [str | None] operands: [a] when [a] is false, else [b]. *)
Definition and_ (a b : option string) : option string :=
  if Py.truthy a then b else a.

(** [configured = bool(client_id and client_secret)] of
    [test_configuration_validation]. *)
Definition configured (client_id client_secret : option string) : bool :=
  Py.truthy (and_ client_id client_secret).

(** The rows of the [parametrize] table: [client_id], [client_secret],
    [expected]. *)
Definition parametrize : list (option string * option string * bool) :=
  [ (Some "valid_id", Some "valid_secret", true);
    (None, Some "valid_secret", false);
    (Some "valid_id", None, false);
    (None, None, false);
    (Some "", Some "valid_secret", false) ].

(** The assertion of the test on one row. *)
Definition test_configuration_validation (row : option string * option string * bool) : bool :=
  let '(client_id, client_secret, expected) := row in
  bool_decide (configured client_id client_secret = expected).

End TestBase.

(** ** [tests/conftest.py]: the collection hook *)

Module Conftest.

(** A collected test item: its file path ([str(item.fspath)]) and the
    markers it carries, oldest first. *)
Record item : Type := {
  fspath : string;
  own_markers : list string;
}.

(** [item.add_marker(pytest.mark.NAME)]: the marker is appended. *)
Definition add_marker (name : string) (it : item) : item :=
  {| fspath := fspath it; own_markers := own_markers it ++ [name] |}.

(** The body of the loop of [pytest_collection_modifyitems]. *)
Definition modify_item (it : item) : item :=
  (* Auto-mark tests based on path *)
  let it :=
    if PyStr.contains "unit" (fspath it) then add_marker "unit" it
    else if PyStr.contains "integration" (fspath it) then add_marker "integration" it
    else it in
  (* Auto-mark provider tests *)
  let it :=
    if PyStr.contains "providers" (fspath it) then add_marker "provider" it
    else it in
  it.

(** The hook changes every item in place and leaves the list itself as it
    is. *)
Definition pytest_collection_modifyitems (items : list item) : list item :=
  map modify_item items.

End Conftest.

(** ** [scripts/validate_tests.py] *)

Module ValidateTests.

(** An expression of a decorator list: a bare name, or anything else. *)
Inductive expr : Type :=
| Name (id : string)
| OtherExpr.

(** A node yielded by [ast.walk], with what the script looks at. *)
Inductive node : Type :=
| FunctionDef (name : string) (decorator_list : list expr)
| AsyncFunctionDef (name : string) (decorator_list : list expr)
| ClassDef (name : string)
| OtherNode.

(** A [Path], as its components. *)
Definition path : Type := list string.

(** [str(p)]. *)
Definition str (p : path) : string := String.concat "/" p.

(** [p.name]: the last component. *)
Definition name_of (p : path) : string := List.last p "".

(** [p.suffix]: the part of the name from its last dot on, when that dot is
    neither the first nor the last character; else empty. *)
Definition suffix (p : path) : string :=
  let name := name_of p in
  match PyStr.rfind_dot name 0 None with
  | Some i =>
      if ((0 <? i) && (i <? String.length name - 1))%nat
      then String.substring i (String.length name - i) name
      else ""
  | None => ""
  end.

(** The files the script can see.  [walk p] is the sequence of nodes that
    [ast.walk(ast.parse(f.read()))] yields for the file at [p], or [None]
    when opening, reading or parsing it raises. *)
Record filesystem : Type := {
  exists_ : path → bool;
  walk : path → option (list node);
}.

(** The dictionary [{"sync": .., "async": .., "total": ..}]. *)
Record counts : Type := {
  sync : nat;
  async : nat;
  total : nat;
}.

Definition is_async_name (d : expr) : bool :=
  match d with
  | Name id => bool_decide (id = "async")
  | OtherExpr => false
  end.

(** One round of the loop of [count_test_functions] on the pair
    [(sync_tests, async_tests)]. *)
Definition count_node (acc : nat * nat) (n : node) : nat * nat :=
  let '(sync_tests, async_tests) := acc in
  match n with
  | FunctionDef name decorator_list =>
      if PyStr.startswith name "test_" then
        if existsb is_async_name decorator_list
        then (sync_tests, S async_tests)
        else (S sync_tests, async_tests)
      else acc
  | AsyncFunctionDef name _ =>
      if PyStr.startswith name "test_" then (sync_tests, S async_tests) else acc
  | _ => acc
  end.

Definition count_test_functions (fs : filesystem) (file_path : path) : counts :=
  match walk fs file_path with
  | None => {| sync := 0; async := 0; total := 0 |}
  | Some nodes =>
      let '(sync_tests, async_tests) := foldl count_node (0, 0)%nat nodes in
      {| sync := sync_tests; async := async_tests;
         total := (sync_tests + async_tests)%nat |}
  end.

(** One round of the loop of [count_test_classes]. *)
Definition count_class (count : nat) (n : node) : nat :=
  match n with
  | ClassDef name => if PyStr.startswith name "Test" then S count else count
  | _ => count
  end.

Definition count_test_classes (fs : filesystem) (file_path : path) : nat :=
  match walk fs file_path with
  | None => 0%nat
  | Some nodes => foldl count_class 0%nat nodes
  end.

(** The [results] dictionary of [validate_test_structure]. *)
Record results : Type := {
  required_files : gmap string (gmap string (bool * string));
  test_counts : gmap string counts;
  class_counts : gmap string nat;
  total_tests : nat;
  total_classes : nat;
  missing_files : list string;
}.

(** The table of required files, in the order the dictionary literal lists
    them. *)
Definition required (project_root : path) : list (string * list (path * string)) :=
  let tests_dir := project_root ++ ["tests"] in
  let testing_dir := project_root ++ ["src"; "litestar_oauth"; "testing"] in
  [ ("Testing utilities",
      [ (testing_dir ++ ["__init__.py"], "Testing module exports");
        (testing_dir ++ ["mocks.py"], "Mock implementations");
        (testing_dir ++ ["fixtures.py"], "Pytest fixtures") ]);
    ("Test configuration",
      [ (tests_dir ++ ["conftest.py"], "Shared fixtures and config") ]);
    ("Unit tests",
      [ (tests_dir ++ ["unit"; "test_types.py"], "Type tests");
        (tests_dir ++ ["unit"; "test_exceptions.py"], "Exception tests");
        (tests_dir ++ ["unit"; "test_base.py"], "Base provider tests");
        (tests_dir ++ ["unit"; "test_service.py"], "Service tests") ]);
    ("Provider tests",
      [ (tests_dir ++ ["unit"; "providers"; "test_github.py"], "GitHub provider tests");
        (tests_dir ++ ["unit"; "providers"; "test_google.py"], "Google provider tests");
        (tests_dir ++ ["unit"; "providers"; "test_discord.py"], "Discord provider tests") ]);
    ("Integration tests",
      [ (tests_dir ++ ["integration"; "test_litestar_plugin.py"], "Litestar plugin tests") ]) ].

(** The test [file_path.suffix == ".py" and "test_" in file_path.name]. *)
Definition is_test_file (file_path : path) : bool :=
  bool_decide (suffix file_path = ".py") && PyStr.contains "test_" (name_of file_path).

(** The body of the inner loop, for one file of [category].  (The inner
    dictionary of [category] exists when this runs: the outer loop has just
    created it.) *)
Definition check_file (fs : filesystem) (category : string)
    (res : results) (entry : path * string) : results :=
  let '(file_path, description) := entry in
  let present := exists_ fs file_path in
  let required_files' :=
    alter (insert (str file_path) (present, description)) category (required_files res) in
  if negb present then
    {| required_files := required_files';
       test_counts := test_counts res;
       class_counts := class_counts res;
       total_tests := total_tests res;
       total_classes := total_classes res;
       missing_files := missing_files res ++ [str file_path] |}
  else if is_test_file file_path then
    (* Count tests in test files *)
    let counts := count_test_functions fs file_path in
    let classes := count_test_classes fs file_path in
    {| required_files := required_files';
       test_counts := <[str file_path := counts]> (test_counts res);
       class_counts := <[str file_path := classes]> (class_counts res);
       total_tests := (total_tests res + total counts)%nat;
       total_classes := (total_classes res + classes)%nat;
       missing_files := missing_files res |}
  else
    {| required_files := required_files';
       test_counts := test_counts res;
       class_counts := class_counts res;
       total_tests := total_tests res;
       total_classes := total_classes res;
       missing_files := missing_files res |}.

(** The body of the outer loop, for one category. *)
Definition check_category (fs : filesystem) (res : results)
    (entry : string * list (path * string)) : results :=
  let '(category, files) := entry in
  let res :=
    {| required_files := <[category := ∅]> (required_files res);
       test_counts := test_counts res;
       class_counts := class_counts res;
       total_tests := total_tests res;
       total_classes := total_classes res;
       missing_files := missing_files res |} in
  foldl (check_file fs category) res files.

Definition validate_test_structure (fs : filesystem) (project_root : path) : results :=
  let res :=
    {| required_files := ∅; test_counts := ∅; class_counts := ∅;
       total_tests := 0; total_classes := 0; missing_files := [] |} in
  foldl (check_category fs) res (required project_root).

(** The [status] line of [print_validation_results]. *)
Definition validation_status (res : results) : string :=
  let all_present := bool_decide (length (missing_files res) = 0%nat) in
  if all_present then "PASS" else "FAIL".

(** The test of [print_validation_results] for the line on the target of
    200 tests. *)
Definition meets_target (res : results) : bool :=
  bool_decide (200 ≤ total_tests res)%nat.

(** The exit status of [main]: [exit(1)] when [missing_files] is not empty,
    else the normal end of the script. *)
Definition main (fs : filesystem) (project_root : path) : Z :=
  let res := validate_test_structure fs project_root in
  match missing_files res with
  | [] => 0
  | _ :: _ => 1
  end.

(** The required paths, in table order. *)
Definition required_paths (project_root : path) : list path :=
  concat (map (λ entry, (entry.2).*1) (required project_root)).

(** The required files with [test_] in their name. *)
Definition test_files (project_root : path) : list path :=
  let tests_dir := project_root ++ ["tests"] in
  [ tests_dir ++ ["unit"; "test_types.py"];
    tests_dir ++ ["unit"; "test_exceptions.py"];
    tests_dir ++ ["unit"; "test_base.py"];
    tests_dir ++ ["unit"; "test_service.py"];
    tests_dir ++ ["unit"; "providers"; "test_github.py"];
    tests_dir ++ ["unit"; "providers"; "test_google.py"];
    tests_dir ++ ["unit"; "providers"; "test_discord.py"];
    tests_dir ++ ["integration"; "test_litestar_plugin.py"] ].

(** A function definition, plain or [async], whose name starts with
    "test_". *)
Definition is_test_function (n : node) : bool :=
  match n with
  | FunctionDef name _ | AsyncFunctionDef name _ => PyStr.startswith name "test_"
  | _ => false
  end.

(** The nodes the two counters count. *)
Definition is_sync_test (n : node) : bool :=
  match n with
  | FunctionDef name decorator_list =>
      PyStr.startswith name "test_" && negb (existsb is_async_name decorator_list)
  | _ => false
  end.

Definition is_async_test (n : node) : bool :=
  match n with
  | FunctionDef name decorator_list =>
      PyStr.startswith name "test_" && existsb is_async_name decorator_list
  | AsyncFunctionDef name _ => PyStr.startswith name "test_"
  | _ => false
  end.

Definition is_test_class (n : node) : bool :=
  match n with
  | ClassDef name => PyStr.startswith name "Test"
  | _ => false
  end.

(** The nodes of a file, none when it cannot be read. *)
Definition nodes_of (fs : filesystem) (file_path : path) : list node :=
  default [] (walk fs file_path).

End ValidateTests.

(** More concrete inputs. *)

Module MoreSamples.
Import ValidateTests.

(** A module with two plain tests, one [async] test, a helper and two
    classes, in the order [ast.walk] yields them and in another order. *)
Definition walked : list node :=
  [ OtherNode; ClassDef "TestThing"; FunctionDef "helper" [];
    FunctionDef "test_a" []; AsyncFunctionDef "test_b" [];
    FunctionDef "test_c" [OtherExpr]; ClassDef "Helper" ].

Definition walked_otherwise : list node :=
  [ AsyncFunctionDef "test_b" []; FunctionDef "test_c" [OtherExpr];
    ClassDef "Helper"; OtherNode; ClassDef "TestThing";
    FunctionDef "helper" []; FunctionDef "test_a" [] ].

(** A checkout in which every file exists except [mocks.py], and every
    file parses to [nodes]. *)
Definition checkout (nodes : list node) : filesystem :=
  {| exists_ := λ p, negb (bool_decide (name_of p = "mocks.py"));
     walk := λ _, Some nodes |}.

(** The clock at 2026-11-03T00:00:00 UTC: day 739923 of the calendar. *)
Definition november_2026 : Py.datetime := Samples.at_second ((739923 - 1) * 86400).

End MoreSamples.

(** ** Theorems about [types.py] *)

Section TypesFacts.
Import Py Types.

Lemma truthy_Some (s : string) : truthy (Some s) = true ↔ s ≠ "".
Proof. unfold truthy. by rewrite bool_decide_eq_true. Qed.

Lemma truthy_false (o : option string) :
  truthy o = false ↔ o = None ∨ o = Some "".
Proof.
  destruct o as [s|]; simpl.
  - rewrite bool_decide_eq_false. split.
    + intros H. right. f_equal. by destruct (decide (s = "")).
    + intros [?|[= ->]]; [done | by intros []].
  - naive_solver.
Qed.

Lemma datetime_in_range_spec (d : Z) :
  datetime_in_range d = true ↔ 0 ≤ d ≤ 315537897599999999.
Proof.
  unfold datetime_in_range, MAXORDINAL.
  rewrite andb_true_iff, Z.leb_le, Z.ltb_lt. lia.
Qed.

(** Inside the range of [datetime] the property returns the clock plus
    [expires_in] seconds. *)
Lemma expires_at_within (tok : OAuthToken) (n : Z) (now : datetime) :
  datetime_in_range now = true → expires_in tok = Some n →
  0 ≤ now + n * 1000000 ≤ 315537897599999999 →
  expires_at tok now = inr (Some (now + n * 1000000)).
Proof.
  intros Hnow%datetime_in_range_spec Hn Hsum.
  unfold expires_at, timedelta_seconds, datetime_add. rewrite Hn.
  assert ((Z.abs (n / 86400) <=? 999999999) = true) as ->.
  { apply Z.leb_le.
    pose proof (Z.div_mod n 86400 ltac:(lia)).
    pose proof (Z.mod_pos_bound n 86400 ltac:(lia)). lia. }
  by rewrite (proj2 (datetime_in_range_spec _) Hsum).
Qed.

(** Outside it the property raises, in the constructor of the [timedelta]
    or in the addition. *)
Lemma expires_at_beyond (tok : OAuthToken) (n : Z) (now : datetime) :
  expires_in tok = Some n →
  ¬ (0 ≤ now + n * 1000000 ≤ 315537897599999999) →
  expires_at tok now = inl OverflowError.
Proof.
  intros Hn Hsum. unfold expires_at, timedelta_seconds, datetime_add. rewrite Hn.
  destruct (Z.abs (n / 86400) <=? 999999999); [| done].
  destruct (datetime_in_range (now + n * 1000000)) eqn:Hrange; [| done].
  by apply datetime_in_range_spec in Hrange.
Qed.

Lemma init_user (first last : option string) :
  OAuthUserInfo_init (Samples.user first last) = inr (Samples.built_user first last).
Proof. reflexivity. Qed.

Lemma init_token (n : option Z) :
  OAuthToken_init (Samples.token n) = inr (Samples.built_token n).
Proof. reflexivity. Qed.

End TypesFacts.

Section TokenExpiry.
Import Py Types.

(** C3.  The code at [OAuthToken(access_token="test", expires_in=3600)],
    built when the clock reads second 1000: construction succeeds, the
    property read at second 1000 gives second 4600, and read again at
    second 2000 it gives second 5600.  The two reads differ and the second
    one is not the construction time plus [expires_in], which the claim
    requires of every read. *)
Theorem C3_expires_at_follows_the_read_clock :
  let tok := Samples.built_token (Some 3600) in
  OAuthToken_init (Samples.token (Some 3600)) = inr tok ∧
  expires_at tok (Samples.at_second 1000) = inr (Some (Samples.at_second 4600)) ∧
  expires_at tok (Samples.at_second 2000) = inr (Some (Samples.at_second 5600)) ∧
  expires_at tok (Samples.at_second 1000) ≠ expires_at tok (Samples.at_second 2000) ∧
  expires_at tok (Samples.at_second 2000)
    ≠ inr (Claimed.expires_at (Samples.at_second 1000) tok).
Proof. repeat split; discriminate. Qed.




(** C9, as stated, fails on [expires_in=-10**11], a non-positive integer:
    read on 2026-11-03 the property raises [OverflowError], the result
    would lie before 0001-01-01. *)
Lemma C9_counterexample :
  let tok := Samples.built_token (Some (-100000000000)) in
  OAuthToken_init (Samples.token (Some (-100000000000))) = inr tok ∧
  datetime_in_range MoreSamples.november_2026 = true ∧
  expires_at tok MoreSamples.november_2026 = inl OverflowError ∧
  expires_at tok MoreSamples.november_2026
    ≠ inr (Some (MoreSamples.november_2026 + -100000000000 * 1000000)).
Proof. repeat split; done. Qed.

(** C9, amended.  For every token whose [expires_in] is a non-positive
    integer [n], read when the clock shows [read]: when [read] plus [n]
    seconds is not before 0001-01-01T00:00:00, [expires_at] is present, is
    [read] plus [n] seconds (so [n] seconds before [read] for a negative
    [n]), and is never later than [read]; for [n = 0] this always holds and
    the value is [read] itself; and when [read] plus [n] seconds is before
    that instant, reading [expires_at] raises [OverflowError]. *)
Theorem C9_expires_at_non_positive_within_range
    (tok : OAuthToken) (n : Z) (read : datetime) :
  datetime_in_range read = true → expires_in tok = Some n → n ≤ 0 →
  (0 ≤ read + n * 1000000 →
     expires_at tok read = inr (Some (read + n * 1000000)) ∧
     expires_at tok read ≠ inr None ∧
     read + n * 1000000 ≤ read) ∧
  (n = 0 → expires_at tok read = inr (Some read)) ∧
  (read + n * 1000000 < 0 → expires_at tok read = inl OverflowError).
Proof.
  intros Hread Hn Hle. pose proof (proj1 (datetime_in_range_spec _) Hread).
  repeat split.
  - apply (expires_at_within _ _ _ Hread Hn). lia.
  - rewrite (expires_at_within _ _ _ Hread Hn) by lia. discriminate.
  - lia.
  - intros ->. rewrite (expires_at_within _ _ _ Hread Hn) by lia.
    do 2 f_equal. lia.
  - intros Hout. apply (expires_at_beyond _ _ _ Hn). lia.
Qed.

Lemma C9_witness :
  let tok := Samples.built_token (Some (-5)) in
  expires_at tok (Samples.at_second 1000) = inr (Some (Samples.at_second 995)) ∧
  expires_at tok (Samples.at_second 1000) ≠ inr None ∧
  Samples.at_second 995 ≤ Samples.at_second 1000.
Proof.
  apply (proj1 (C9_expires_at_non_positive_within_range
                  (Samples.built_token (Some (-5))) (-5) (Samples.at_second 1000)
                  eq_refl eq_refl ltac:(lia))).
  vm_compute. discriminate.
Defined.

End TokenExpiry.

Section UserInfoFacts.
Import Py Types.

(** C5, as stated, fails on [first_name=""], [last_name="Doe"]: both names
    are present, the claim gives [" Doe"], the code gives ["Doe"]. *)
Lemma C5_counterexample :
  let u := Samples.built_user (Some "") (Some "Doe") in
  OAuthUserInfo_init (Samples.user (Some "") (Some "Doe")) = inr u ∧
  full_name u = Some "Doe" ∧
  Claimed.full_name u = Some " Doe" ∧
  full_name u ≠ Claimed.full_name u.
Proof. repeat split; discriminate. Qed.

(** C5, amended.  With a name counted as present only when it is a
    non-empty string: [full_name] is [first_name + " " + last_name] when
    both are present, is the present one when exactly one is, and is
    [None] when both are [None]. *)
Theorem C5_full_name_of_non_empty_names (u : OAuthUserInfo) :
  (∀ f l : string, first_name u = Some f → last_name u = Some l →
     f ≠ "" → l ≠ "" → full_name u = Some (f +:+ " " +:+ l)) ∧
  (∀ f : string, first_name u = Some f → f ≠ "" →
     truthy (last_name u) = false → full_name u = Some f) ∧
  (∀ l : string, last_name u = Some l → l ≠ "" →
     truthy (first_name u) = false → full_name u = Some l) ∧
  (first_name u = None → last_name u = None → full_name u = None).
Proof.
  unfold full_name, or_. repeat split.
  - intros f l -> -> Hf Hl.
    by rewrite (proj2 (truthy_Some f) Hf), (proj2 (truthy_Some l) Hl).
  - intros f -> Hf ->. by rewrite (proj2 (truthy_Some f) Hf).
  - intros l -> Hl ->. simpl. done.
  - by intros -> ->.
Qed.

Lemma C5_witness :
  full_name (Samples.built_user (Some "The") (Some "Octocat")) = Some "The Octocat" ∧
  full_name (Samples.built_user (Some "The") (Some "")) = Some "The" ∧
  full_name (Samples.built_user None (Some "Octocat")) = Some "Octocat" ∧
  full_name (Samples.built_user None None) = None.
Proof.
  split; [|split; [|split]].
  - apply (proj1 (C5_full_name_of_non_empty_names
                    (Samples.built_user (Some "The") (Some "Octocat")))
             "The" "Octocat"); [reflexivity | reflexivity | discriminate | discriminate].
  - apply (proj1 (proj2 (C5_full_name_of_non_empty_names
                           (Samples.built_user (Some "The") (Some ""))))
             "The"); [reflexivity | discriminate | reflexivity].
  - apply (proj1 (proj2 (proj2 (C5_full_name_of_non_empty_names
                                  (Samples.built_user None (Some "Octocat")))))
             "Octocat"); [reflexivity | discriminate | reflexivity].
  - apply (proj2 (proj2 (proj2 (C5_full_name_of_non_empty_names
                                  (Samples.built_user None None)))));
      reflexivity.
Defined.

(** With no non-empty name the property returns [last_name] as it is
    stored. *)
Example full_name_without_non_empty_name :
  full_name (Samples.built_user (Some "") None) = None ∧
  full_name (Samples.built_user None (Some "")) = Some "" ∧
  full_name (Samples.built_user (Some "") (Some "")) = Some "".
Proof. repeat split. Qed.

(** C6, as stated, fails on [OAuthUserInfo(provider="", oauth_id="")]:
    the constructor accepts it and both fields are empty. *)
Lemma C6_counterexample :
  OAuthUserInfo_init Samples.anonymous = inr Samples.built_anonymous ∧
  ¬ Claimed.ids_non_empty Samples.built_anonymous.
Proof. split; [reflexivity | by intros [H _]]. Qed.

(** C6, amended.  [provider] and [oauth_id] are required and stored as
    given: a constructed record holds exactly the two strings that were
    passed; whenever both are passed, empty or not, construction
    succeeds; and leaving one out is rejected with [TypeError]. *)
Theorem C6_ids_required_and_stored_verbatim (kw : OAuthUserInfo_kwargs) :
  (∀ u : OAuthUserInfo, OAuthUserInfo_init kw = inr u →
     kw_provider kw = Some (provider u) ∧ kw_oauth_id kw = Some (oauth_id u)) ∧
  (∀ p i : string, kw_provider kw = Some p → kw_oauth_id kw = Some i →
     ∃ u : OAuthUserInfo, OAuthUserInfo_init kw = inr u ∧ provider u = p ∧ oauth_id u = i) ∧
  (kw_provider kw = None ∨ kw_oauth_id kw = None → OAuthUserInfo_init kw = inl TypeError).
Proof.
  unfold OAuthUserInfo_init. repeat split.
  - destruct (kw_provider kw), (kw_oauth_id kw); naive_solver.
  - destruct (kw_provider kw), (kw_oauth_id kw); naive_solver.
  - intros p i -> ->. eauto.
  - intros [-> | ->]; [done | by destruct (kw_provider kw)].
Qed.

Lemma C6_witness :
  (kw_provider Samples.anonymous = Some (provider Samples.built_anonymous) ∧
   kw_oauth_id Samples.anonymous = Some (oauth_id Samples.built_anonymous)) ∧
  (∃ u : OAuthUserInfo,
     OAuthUserInfo_init Samples.anonymous = inr u ∧ provider u = "" ∧ oauth_id u = "").
Proof.
  destruct (C6_ids_required_and_stored_verbatim Samples.anonymous) as (Hstored & Hbuilt & _).
  split.
  - apply Hstored. reflexivity.
  - apply Hbuilt; reflexivity.
Defined.

(** The assignment model is not vacuous: on a class that is not frozen the
    assignment reaches the slot store and changes the instance. *)
Example setattr_when_not_frozen :
  setattr false ∅ (λ _ v _, inr v) VNone "next_url" (VStr "/profile")
    = (inr tt, VStr "/profile").
Proof. reflexivity. Qed.

(** C7.  In both branches of the module, for each of [OAuthUserInfo],
    [OAuthToken] and [OAuthState], for every instance, every attribute
    name and every value: the assignment raises and the instance after it
    is the instance before it. *)
Theorem C7_frozen_instances_reject_assignment
    (HAS_MSGSPEC : bool) (c : class_name) {T : Type}
    (store : string → value → T → exn + T)
    (self : T) (name : string) (v : value) :
  ∃ e : exn,
    setattr HAS_MSGSPEC (class_kwargs HAS_MSGSPEC c) store self name v = (inl e, self).
Proof.
  unfold setattr.
  assert (option_on (class_kwargs HAS_MSGSPEC c) "frozen" = true) as ->.
  { by destruct HAS_MSGSPEC. }
  eauto.
Qed.

End UserInfoFacts.

(** ** Theorems about [config.py] *)

Section ConfigFacts.
Import Py Config.

(** A provider statement leaves every other key alone. *)
Lemma lookup_add_if_configured_ne (name : string) (cid sec : option string)
    (sc : string) (m : gmap string (gmap string string)) (k : string) :
  k ≠ name → add_if_configured name cid sec sc m !! k = m !! k.
Proof.
  intros Hne. unfold add_if_configured.
  destruct cid as [c|], sec as [s|]; try done.
  destruct (truthy (Some c) && truthy (Some s)); [|done].
  by rewrite lookup_insert_ne.
Qed.

(** A provider statement on a key that is still free: the key is set
    exactly when both credentials are non-empty strings. *)
Lemma lookup_add_if_configured_fresh (name : string) (cid sec : option string)
    (sc : string) (m : gmap string (gmap string string)) (d : gmap string string) :
  m !! name = None →
  add_if_configured name cid sec sc m !! name = Some d ↔
  ∃ c s : string,
    cid = Some c ∧ sec = Some s ∧ c ≠ "" ∧ s ≠ "" ∧
    d = {[ "client_id" := c; "client_secret" := s; "scope" := sc ]}.
Proof.
  intros Hfree. unfold add_if_configured.
  destruct cid as [c|], sec as [s|];
    try (rewrite Hfree; split; [done | by intros (? & ? & ? & ? & _)]).
  destruct (truthy (Some c)) eqn:Hc, (truthy (Some s)) eqn:Hs; simpl.
  - apply truthy_Some in Hc, Hs. rewrite lookup_insert_eq. unfold provider_dict.
    split.
    + intros [= <-]. by exists c, s.
    + by intros (? & ? & [= <-] & [= <-] & _ & _ & ->).
  - rewrite Hfree. split; [done |]. intros (c' & s' & [= <-] & [= <-] & _ & Hs' & _).
    apply truthy_Some in Hs'. congruence.
  - rewrite Hfree. split; [done |]. intros (c' & s' & [= <-] & [= <-] & Hc' & _).
    apply truthy_Some in Hc'. congruence.
  - rewrite Hfree. split; [done |]. intros (c' & s' & [= <-] & [= <-] & Hc' & _).
    apply truthy_Some in Hc'. congruence.
Qed.

(** The same condition, read off the settings triple of a provider. *)
Lemma settings_entry (cid sec : option string) (sc : string) (d : gmap string string) :
  (∃ c s : string,
     cid = Some c ∧ sec = Some s ∧ c ≠ "" ∧ s ≠ "" ∧
     d = {[ "client_id" := c; "client_secret" := s; "scope" := sc ]}) ↔
  (∃ c s sc' : string,
     Some (cid, sec, sc) = Some (Some c, Some s, sc') ∧ c ≠ "" ∧ s ≠ "" ∧
     d = {[ "client_id" := c; "client_secret" := s; "scope" := sc' ]}).
Proof.
  split.
  - intros (c & s & -> & -> & Hc & Hs & ->). by exists c, s, sc.
  - intros (c & s & sc' & [= -> -> <-] & Hc & Hs & ->). by exists c, s.
Qed.

(** The mapping the three provider statements build, before the
    [enabled_providers] filter. *)
Lemma lookup_all_added (cfg : OAuthConfig) (name : string) (d : gmap string string) :
  add_if_configured "discord" (discord_client_id cfg) (discord_client_secret cfg)
    (discord_scope cfg)
    (add_if_configured "google" (google_client_id cfg) (google_client_secret cfg)
       (google_scope cfg)
       (add_if_configured "github" (github_client_id cfg) (github_client_secret cfg)
          (github_scope cfg) ∅)) !! name = Some d ↔
  ∃ cid sec sc : string,
    Claimed.settings cfg name = Some (Some cid, Some sec, sc) ∧
    cid ≠ "" ∧ sec ≠ "" ∧
    d = {[ "client_id" := cid; "client_secret" := sec; "scope" := sc ]}.
Proof.
  unfold Claimed.settings.
  destruct (decide (name = "github")) as [-> | Hgithub];
    [| destruct (decide (name = "google")) as [-> | Hgoogle];
       [| destruct (decide (name = "discord")) as [-> | Hdiscord]]].
  - rewrite !lookup_add_if_configured_ne by done.
    rewrite lookup_add_if_configured_fresh by apply lookup_empty.
    rewrite bool_decide_eq_true_2 by done. apply settings_entry.
  - rewrite lookup_add_if_configured_ne by done.
    rewrite lookup_add_if_configured_fresh
      by (by rewrite lookup_add_if_configured_ne, lookup_empty).
    rewrite bool_decide_eq_false_2, bool_decide_eq_true_2 by done.
    apply settings_entry.
  - rewrite lookup_add_if_configured_fresh
      by (by rewrite !lookup_add_if_configured_ne, lookup_empty).
    rewrite !bool_decide_eq_false_2, bool_decide_eq_true_2 by done.
    apply settings_entry.
  - rewrite !lookup_add_if_configured_ne, lookup_empty by done.
    rewrite !bool_decide_eq_false_2 by done.
    split; [done | by intros (? & ? & ? & ? & _)].
Qed.

(** All three providers have credentials, two names are enabled, one of
    them unknown: only [github] is returned. *)
Example get_configured_providers_github_only :
  get_configured_providers (Samples.config (Some ["github"; "gitlab"]))
    = {[ "github" := {[ "client_id" := "gh-id"; "client_secret" := "gh-secret";
                        "scope" := "read:user user:email" ]} ]}.
Proof.
  apply map_eq. intros k. unfold get_configured_providers. simpl.
  destruct (decide (k = "github")) as [-> | Hne]; [by vm_compute |].
  rewrite lookup_singleton_ne by done.
  apply map_lookup_filter_None. right. intros d Hd Hin. simpl in Hin.
  assert (k = "gitlab") as ->.
  { apply elem_of_cons in Hin as [? | Hin]; [done |].
    apply elem_of_cons in Hin as [? | Hin]; [done |].
    by apply elem_of_nil in Hin. }
  vm_compute in Hd. discriminate.
Qed.

(** C8.  For every configuration and every key: the result maps the key to
    a dictionary exactly when the key is one of [github], [google],
    [discord], the [client_id] and [client_secret] of that provider are
    both non-empty strings, and the key passes [enabled_providers] (no
    restriction when it is [None], membership when it is a sequence); the
    dictionary then holds exactly that [client_id], [client_secret] and
    [scope]. *)
Theorem C8_configured_providers_exactly
    (cfg : OAuthConfig) (name : string) (d : gmap string string) :
  get_configured_providers cfg !! name = Some d ↔
  ∃ cid sec sc : string,
    Claimed.settings cfg name = Some (Some cid, Some sec, sc) ∧
    cid ≠ "" ∧ sec ≠ "" ∧
    d = {[ "client_id" := cid; "client_secret" := sec; "scope" := sc ]} ∧
    Claimed.enabled cfg name.
Proof.
  unfold get_configured_providers, Claimed.enabled.
  destruct (enabled_providers cfg) as [names|].
  - rewrite map_lookup_filter_Some, lookup_all_added. simpl. split.
    + intros ((c & s & sc & ? & ? & ? & ?) & ?). by exists c, s, sc.
    + intros (c & s & sc & ? & ? & ? & ? & ?). split; [by exists c, s, sc | done].
  - rewrite lookup_all_added. split.
    + intros (c & s & sc & ? & ? & ? & ?). by exists c, s, sc.
    + intros (c & s & sc & ? & ? & ? & ? & _). by exists c, s, sc.
Qed.

(** C10.  For every configuration whose [enabled_providers] is the empty
    sequence, the result is the empty mapping, whatever credentials are
    set. *)
Theorem C10_empty_enabled_list_disables_all (cfg : OAuthConfig) :
  enabled_providers cfg = Some [] → get_configured_providers cfg = ∅.
Proof.
  intros Hnone. unfold get_configured_providers. rewrite Hnone.
  apply map_empty. intros k. apply map_lookup_filter_None. right.
  intros d _ Hin. simpl in Hin. by apply elem_of_nil in Hin.
Qed.

Lemma C10_witness :
  get_configured_providers (Samples.config (Some [])) = ∅.
Proof.
  apply (C10_empty_enabled_list_disables_all (Samples.config (Some []))).
  reflexivity.
Defined.

End ConfigFacts.

(** ** Theorems about the state store *)

Section StateStoreFacts.
Import Py StateStore.

Lemma run_cons (o : op) (ops : list op) (s : t) :
  run (o :: ops) s = run ops (step o s).
Proof. reflexivity. Qed.

(** A call on another token leaves the record of [tok] as it is. *)
Lemma records_step_other (o : op) (s : t) (tok : string) :
  op_token o ≠ tok → records (step o s) !! tok = records s !! tok.
Proof.
  intros Hne. destruct o as [nonce now p r ttl n e | now tok']; simpl in *.
  - by rewrite lookup_insert_ne.
  - unfold Validate. destruct (records s !! tok') as [rec|]; [|done].
    case_bool_decide; simpl; by rewrite lookup_delete_ne.
Qed.

Lemma records_run_other (ops : list op) (s : t) (tok : string) :
  Forall (λ o, op_token o ≠ tok) ops →
  records (run ops s) !! tok = records s !! tok.
Proof.
  intros Hall. revert s.
  induction Hall as [| o ops Ho _ IH]; intros s; [done |].
  by rewrite run_cons, IH, records_step_other.
Qed.

(** Only [Create] with the same token can bring an absent token back. *)
Lemma records_step_absent (o : op) (s : t) (tok : string) :
  (is_create o = true → op_token o ≠ tok) →
  records s !! tok = None → records (step o s) !! tok = None.
Proof.
  intros Hne Habsent. destruct o as [nonce now p r ttl n e | now tok']; simpl in *.
  - rewrite lookup_insert_ne; [done | by apply Hne].
  - unfold Validate. destruct (records s !! tok') as [rec|] eqn:Hrec; [|done].
    destruct (decide (tok' = tok)) as [-> | Hother]; [congruence |].
    case_bool_decide; simpl; by rewrite lookup_delete_ne.
Qed.

Lemma records_run_absent (ops : list op) (s : t) (tok : string) :
  Forall (λ o, is_create o = true → op_token o ≠ tok) ops →
  records s !! tok = None → records (run ops s) !! tok = None.
Proof.
  intros Hall. revert s.
  induction Hall as [| o ops Ho _ IH]; intros s Habsent; [done |].
  rewrite run_cons. by apply IH, records_step_absent.
Qed.

Lemma Validate_absent (now : datetime) (tok : string) (s : t) :
  records s !! tok = None → Validate now tok s = (None, s).
Proof. unfold Validate. by intros ->. Qed.

Lemma Validate_live (now : datetime) (tok : string) (s : t) (rec : StateRecord) :
  records s !! tok = Some rec → now ≤ expiresAt rec →
  Validate now tok s = (Some rec, with_records s (delete tok (records s))).
Proof.
  unfold Validate. intros -> Hlive. rewrite bool_decide_eq_false_2; [done | lia].
Qed.

(** Whatever it answers, [Validate] leaves no record under the token. *)
Lemma Validate_consumes (now : datetime) (tok : string) (s : t) :
  records (Validate now tok s).2 !! tok = None.
Proof.
  unfold Validate. destruct (records s !! tok) as [rec|] eqn:Hrec; [|done].
  case_bool_decide; simpl; apply lookup_delete_eq.
Qed.

(** C1.  [Create] returns the token [tok] and stores the record [rec].
    After any calls [before] that do not involve [tok], the first
    [Validate] of [tok] at a time [now1] not after [expiresAt] returns
    exactly [rec]; and after any further calls [after] among which no
    [Create] issues [tok] again, every [Validate] of [tok], at any time
    [now2], returns not-found. *)
Theorem C1_validate_consumes_exactly_once
    (s : t) (nonce : string) (now : datetime) (prov uri : string)
    (ttl : option Z) (next : option string) (ext : gmap string value)
    (before after : list op) (now1 now2 : datetime) :
  let created := Create nonce now prov uri ttl next ext s in
  let tok := created.1 in
  let rec := {| token := tok; provider := prov; redirectURI := uri;
                createdAt := now;
                expiresAt := plus_seconds now (default (default_ttl s) ttl);
                nextURL := next; extra := ext |} in
  Forall (λ o, op_token o ≠ tok) before →
  Forall (λ o, is_create o = true → op_token o ≠ tok) after →
  now1 ≤ expiresAt rec →
  let first := Validate now1 tok (run before created.2) in
  first.1 = Some rec ∧
  (Validate now2 tok (run after first.2)).1 = None.
Proof.
  intros created tok rec Hbefore Hafter Hlive first.
  assert (records (run before created.2) !! tok = Some rec) as Hstored.
  { rewrite records_run_other by done. apply lookup_insert_eq. }
  split.
  - subst first. by rewrite (Validate_live _ _ _ _ Hstored Hlive).
  - rewrite Validate_absent; [done |].
    apply records_run_absent; [done |]. apply Validate_consumes.
Qed.

Lemma C1_witness :
  let created :=
    Create "nonce-1" (Samples.at_second 1000) "github" "http://localhost/cb"
      None (Some "/dashboard") ∅ Samples.empty_store in
  let rec := {| token := "nonce-1"; provider := "github";
                redirectURI := "http://localhost/cb";
                createdAt := Samples.at_second 1000;
                expiresAt := Samples.at_second 1600;
                nextURL := Some "/dashboard"; extra := ∅ |} in
  let before :=
    [OpCreate "nonce-2" (Samples.at_second 1001) "google" "http://localhost/cb"
       None None ∅;
     OpValidate (Samples.at_second 1002) "unknown"] in
  let after :=
    [OpValidate (Samples.at_second 1700) "nonce-1";
     OpCreate "nonce-3" (Samples.at_second 1701) "github" "http://localhost/cb"
       None None ∅] in
  let first := Validate (Samples.at_second 1600) "nonce-1" (run before created.2) in
  first.1 = Some rec ∧
  (Validate (Samples.at_second 1601) "nonce-1" (run after first.2)).1 = None.
Proof.
  apply (C1_validate_consumes_exactly_once Samples.empty_store "nonce-1"
           (Samples.at_second 1000) "github" "http://localhost/cb" None
           (Some "/dashboard") ∅
           [OpCreate "nonce-2" (Samples.at_second 1001) "google" "http://localhost/cb"
              None None ∅;
            OpValidate (Samples.at_second 1002) "unknown"]
           [OpValidate (Samples.at_second 1700) "nonce-1";
            OpCreate "nonce-3" (Samples.at_second 1701) "github" "http://localhost/cb"
              None None ∅]
           (Samples.at_second 1600) (Samples.at_second 1601)).
  - repeat constructor; discriminate.
  - repeat constructor; simpl; discriminate.
  - vm_compute. discriminate.
Defined.

End StateStoreFacts.

(** ** Theorems about the orchestrator *)

Section OrchestratorFacts.
Import Py Orchestrator.

(** C2.  Whenever the state token resolves to a record [rec] (it is
    stored and not expired, so [Validate] returns it) whose provider is not
    [providerName], [CompleteLogin] fails with [StateValidationError]; no
    request has been sent to any vendor (the list of requests sent is
    unchanged), and the token has been consumed. *)
Theorem C2_provider_mismatch_fails_state_validation
    (w : world) (providerName code state : string) (now : datetime)
    (rec : StateStore.StateRecord) :
  (StateStore.Validate now state (store w)).1 = Some rec →
  StateStore.provider rec ≠ providerName →
  ∃ w' : world,
    CompleteLogin providerName code state now w = (inl StateValidationError, w') ∧
    sent w' = sent w ∧
    registry w' = registry w ∧
    StateStore.records (store w') !! state = None.
Proof.
  intros Hfound Hmismatch. unfold CompleteLogin.
  pose proof (StateStore_consumed := Validate_consumes now state (store w)).
  destruct (StateStore.Validate now state (store w)) as [found s'].
  simpl in Hfound, StateStore_consumed. subst found.
  rewrite bool_decide_eq_false_2 by done.
  by eexists.
Qed.

Lemma C2_witness :
  ∃ w' : world,
    CompleteLogin "google" "code123" "nonce-1" (Samples.at_second 1100)
      Samples.world_after_begin = (inl StateValidationError, w') ∧
    sent w' = sent Samples.world_after_begin ∧
    registry w' = registry Samples.world_after_begin ∧
    StateStore.records (store w') !! "nonce-1" = None.
Proof.
  apply (C2_provider_mismatch_fails_state_validation Samples.world_after_begin
           "google" "code123" "nonce-1" (Samples.at_second 1100)
           {| StateStore.token := "nonce-1"; StateStore.provider := "github";
              StateStore.redirectURI := "http://localhost/cb";
              StateStore.createdAt := Samples.at_second 1000;
              StateStore.expiresAt := Samples.at_second 1600;
              StateStore.nextURL := None; StateStore.extra := ∅ |}).
  - reflexivity.
  - discriminate.
Defined.

(** The same login with the matching provider goes through: the mismatch,
    not the sample, is what makes the call above fail. *)
Example CompleteLogin_matching_provider :
  (CompleteLogin "github" "code123" "nonce-1" (Samples.at_second 1100)
     Samples.world_after_begin).1
    = inr (Samples.built_user None None, Samples.built_token (Some 3600)) ∧
  sent (CompleteLogin "github" "code123" "nonce-1" (Samples.at_second 1100)
          Samples.world_after_begin).2
    = [CallUserInfo "github" "test"; CallExchange "github" "code123" "http://localhost/cb"].
Proof. split; reflexivity. Qed.

End OrchestratorFacts.

(** ** More about [get_configured_providers] *)

Section ConfigMore.
Import Py Config ConfigOps.

(** With a list, the result is the result without a filter, restricted to
    the listed names. *)
Lemma get_configured_providers_with_enabled (cfg : OAuthConfig) (names : list string) :
  get_configured_providers (with_enabled cfg (Some names)) =
    filter (λ kv, kv.1 ∈ names) (get_configured_providers (with_enabled cfg None)).
Proof. reflexivity. Qed.

Lemma get_configured_providers_unfiltered (cfg : OAuthConfig) :
  get_configured_providers cfg =
    match enabled_providers cfg with
    | Some names =>
        filter (λ kv, kv.1 ∈ names) (get_configured_providers (with_enabled cfg None))
    | None => get_configured_providers (with_enabled cfg None)
    end.
Proof. reflexivity. Qed.

Lemma elem_of_keys (m : gmap string (gmap string string)) (k : string) :
  k ∈ keys m ↔ is_Some (m !! k).
Proof.
  unfold keys. rewrite list_elem_of_fmap. split.
  - intros ([k' d] & -> & Hin). apply elem_of_map_to_list in Hin. by exists d.
  - intros [d Hd]. exists (k, d). split; [done | by apply elem_of_map_to_list].
Qed.

(** X1.  Enabling more names never removes a provider: when every name of
    [names1] is in [names2], the result for [names1] is contained in the
    result for [names2], which is contained in the result without a
    filter. *)
Theorem enabled_providers_monotone (cfg : OAuthConfig) (names1 names2 : list string) :
  (∀ x : string, x ∈ names1 → x ∈ names2) →
  get_configured_providers (with_enabled cfg (Some names1))
    ⊆ get_configured_providers (with_enabled cfg (Some names2)) ∧
  get_configured_providers (with_enabled cfg (Some names2))
    ⊆ get_configured_providers (with_enabled cfg None).
Proof.
  intros Hsub. rewrite !get_configured_providers_with_enabled. split.
  - apply map_subseteq_spec. intros k d.
    rewrite !map_lookup_filter_Some. simpl. intros [Hd Hin]. split; [done | by apply Hsub].
  - apply map_filter_subseteq.
Qed.

Lemma enabled_providers_monotone_witness :
  get_configured_providers (with_enabled (Samples.config None) (Some ["google"]))
    ⊆ get_configured_providers
        (with_enabled (Samples.config None) (Some ["github"; "google"])) ∧
  get_configured_providers (with_enabled (Samples.config None) (Some ["github"; "google"]))
    ⊆ get_configured_providers (with_enabled (Samples.config None) None).
Proof.
  apply (enabled_providers_monotone (Samples.config None) ["google"] ["github"; "google"]).
  intros x. rewrite !elem_of_cons, !elem_of_nil. tauto.
Defined.

(** X2.  Only membership in [enabled_providers] matters: two lists with the
    same members, in any order and with any repetitions, give the same
    result. *)
Theorem enabled_providers_order_and_duplicates
    (cfg : OAuthConfig) (names1 names2 : list string) :
  (∀ x : string, x ∈ names1 ↔ x ∈ names2) →
  get_configured_providers (with_enabled cfg (Some names1))
    = get_configured_providers (with_enabled cfg (Some names2)).
Proof.
  intros Hsame. rewrite !get_configured_providers_with_enabled.
  apply map_filter_ext. intros k d _. simpl. apply Hsame.
Qed.

Lemma enabled_providers_order_and_duplicates_witness :
  get_configured_providers
    (with_enabled (Samples.config None) (Some ["github"; "google"]))
  = get_configured_providers
      (with_enabled (Samples.config None) (Some ["google"; "github"; "google"])).
Proof.
  apply (enabled_providers_order_and_duplicates (Samples.config None)
           ["github"; "google"] ["google"; "github"; "google"]).
  intros x. rewrite !elem_of_cons, !elem_of_nil. tauto.
Defined.

(** X3.  Feeding the names of the result back as [enabled_providers] gives
    the same result again. *)
Theorem enabling_the_result_is_a_fixpoint (cfg : OAuthConfig) :
  get_configured_providers
    (with_enabled cfg (Some (keys (get_configured_providers cfg))))
  = get_configured_providers cfg.
Proof.
  rewrite get_configured_providers_with_enabled.
  rewrite (get_configured_providers_unfiltered cfg).
  apply map_eq. intros k. apply option_eq. intros d.
  rewrite map_lookup_filter_Some. simpl. rewrite elem_of_keys.
  destruct (enabled_providers cfg) as [names|].
  - rewrite map_lookup_filter_Some. simpl. split.
    + intros [Hd [d' Hd']]. apply map_lookup_filter_Some in Hd' as [_ Hin]. done.
    + intros [Hd Hin]. split; [done |]. exists d.
      by apply map_lookup_filter_Some.
  - split; [by intros [? _] | eauto].
Qed.

(** A key of the result is a key of the unfiltered result that passes
    [enabled_providers]. *)
Lemma lookup_filtered (cfg : OAuthConfig) (name : string) (d : gmap string string) :
  get_configured_providers cfg !! name = Some d ↔
  get_configured_providers (with_enabled cfg None) !! name = Some d ∧
  Claimed.enabled cfg name.
Proof.
  rewrite (get_configured_providers_unfiltered cfg). unfold Claimed.enabled.
  destruct (enabled_providers cfg) as [names|].
  - by rewrite map_lookup_filter_Some.
  - tauto.
Qed.

Lemma lookup_unfiltered (cfg : OAuthConfig) (name : string) (d : gmap string string) :
  get_configured_providers (with_enabled cfg None) !! name = Some d ↔
  ∃ cid sec sc : string,
    Claimed.settings cfg name = Some (Some cid, Some sec, sc) ∧
    cid ≠ "" ∧ sec ≠ "" ∧
    d = {[ "client_id" := cid; "client_secret" := sec; "scope" := sc ]}.
Proof. apply (lookup_all_added cfg). Qed.

(** The predicate of the test table holds exactly for two non-empty
    strings. *)
Lemma configured_true (client_id client_secret : option string) :
  TestBase.configured client_id client_secret = true ↔
  ∃ c s : string, client_id = Some c ∧ client_secret = Some s ∧ c ≠ "" ∧ s ≠ "".
Proof.
  unfold TestBase.configured, TestBase.and_.
  destruct (truthy client_id) eqn:Hid.
  - destruct client_id as [c|]; [| done]. apply truthy_Some in Hid.
    destruct client_secret as [s|]; simpl.
    + rewrite bool_decide_eq_true. split.
      * intros Hs. by exists c, s.
      * by intros (? & ? & _ & [= <-] & _ & ?).
    + split; [done | by intros (? & ? & _ & ? & _)].
  - rewrite Hid. split; [done |].
    intros (c & s & -> & _ & Hc & _). apply truthy_Some in Hc. congruence.
Qed.

Lemma settings_known (cfg : OAuthConfig) (name : string)
    (t : option string * option string * string) :
  Claimed.settings cfg name = Some t →
  name = "github" ∨ name = "google" ∨ name = "discord".
Proof.
  unfold Claimed.settings. repeat case_bool_decide; try discriminate; tauto.
Qed.

(** X4.  Every entry of the result can be used as it is: its key is
    [github], [google] or [discord]; its dictionary has exactly the keys
    [client_id], [client_secret] and [scope]; and its [client_id] and
    [client_secret] pass the check [bool(client_id and client_secret)] of
    the provider configuration test. *)
Theorem returned_entries_are_configured
    (cfg : OAuthConfig) (name : string) (d : gmap string string) :
  get_configured_providers cfg !! name = Some d →
  (name = "github" ∨ name = "google" ∨ name = "discord") ∧
  dom d = {[ "client_id"; "client_secret"; "scope" ]} ∧
  TestBase.configured (d !! "client_id") (d !! "client_secret") = true.
Proof.
  intros Hd. apply lookup_filtered in Hd as [Hd _].
  apply lookup_unfiltered in Hd as (c & s & sc & Hset & Hc & Hs & ->).
  split; [by eapply settings_known |]. split.
  - rewrite !dom_insert_L, dom_singleton_L. set_solver.
  - apply configured_true. exists c, s. by simplify_map_eq.
Qed.

Lemma returned_entries_are_configured_witness :
  ("github" = "github" ∨ "github" = "google" ∨ "github" = "discord") ∧
  dom (provider_dict "gh-id" "gh-secret" "read:user user:email")
    = {[ "client_id"; "client_secret"; "scope" ]} ∧
  TestBase.configured
    (provider_dict "gh-id" "gh-secret" "read:user user:email" !! "client_id")
    (provider_dict "gh-id" "gh-secret" "read:user user:email" !! "client_secret") = true.
Proof.
  apply (returned_entries_are_configured (Samples.config None) "github"
           (provider_dict "gh-id" "gh-secret" "read:user user:email")).
  reflexivity.
Defined.

(** X5.  The check of [test_configuration_validation] is the check of
    [get_configured_providers]: the five rows of the test table pass, and
    without a filter each of the three providers is in the result exactly
    when [bool(client_id and client_secret)] is true of its credentials. *)
Theorem configuration_check_agrees_with_test_table (cfg : OAuthConfig) :
  forallb TestBase.test_configuration_validation TestBase.parametrize = true ∧
  (is_Some (get_configured_providers (with_enabled cfg None) !! "github") ↔
     TestBase.configured (github_client_id cfg) (github_client_secret cfg) = true) ∧
  (is_Some (get_configured_providers (with_enabled cfg None) !! "google") ↔
     TestBase.configured (google_client_id cfg) (google_client_secret cfg) = true) ∧
  (is_Some (get_configured_providers (with_enabled cfg None) !! "discord") ↔
     TestBase.configured (discord_client_id cfg) (discord_client_secret cfg) = true).
Proof.
  split; [reflexivity |].
  repeat split.
  all: try (intros [d Hd]; apply lookup_unfiltered in Hd as (c & s & sc & Hset & Hc & Hs & _);
            injection Hset as -> -> _; apply configured_true; by exists c, s).
  all: intros (c & s & Hc & Hs & ? & ?)%configured_true;
       eexists; apply lookup_unfiltered; exists c, s; eexists;
       unfold Claimed.settings; simpl; rewrite Hc, Hs; done.
Qed.

(** X6.  The result is empty exactly when no provider both has its two
    credentials set to non-empty strings and passes [enabled_providers]; in
    particular a configuration built from [redirect_base_url] alone
    configures nothing. *)
Theorem no_provider_configured (cfg : OAuthConfig) :
  (get_configured_providers cfg = ∅ ↔
   ∀ (name : string) (cid sec : option string) (sc : string),
     Claimed.settings cfg name = Some (cid, sec, sc) →
     TestBase.configured cid sec = true → ¬ Claimed.enabled cfg name) ∧
  (∀ url : string, get_configured_providers (OAuthConfig_default url) = ∅).
Proof.
  split; [| reflexivity]. split.
  - intros Hempty name cid sec sc Hset (c & s & -> & -> & Hc & Hs)%configured_true Hen.
    assert (get_configured_providers cfg !! name
            = Some {[ "client_id" := c; "client_secret" := s; "scope" := sc ]}) as Hd.
    { apply lookup_filtered. split; [| done]. apply lookup_unfiltered. by exists c, s, sc. }
    rewrite Hempty in Hd. by rewrite lookup_empty in Hd.
  - intros Hnone. apply map_empty. intros name.
    destruct (get_configured_providers cfg !! name) as [d|] eqn:Hd; [| done].
    apply lookup_filtered in Hd as [Hd Hen].
    apply lookup_unfiltered in Hd as (c & s & sc & Hset & Hc & Hs & _).
    destruct (Hnone name (Some c) (Some s) sc Hset); [| done].
    apply configured_true. by exists c, s.
Qed.

End ConfigMore.

(** ** More about [types.py] *)

Section TypesMore.
Import Py Types.

Lemma append_non_empty (a b : string) : a ≠ "" → a +:+ b ≠ "".
Proof. destruct a; [done | discriminate]. Qed.

(** X7.  [full_name] is a non-empty string exactly when [first_name] or
    [last_name] is one: the property is true in a condition exactly when
    one of the two names is. *)
Theorem full_name_truthy (u : OAuthUserInfo) :
  truthy (full_name u) = truthy (first_name u) || truthy (last_name u).
Proof.
  unfold full_name, or_.
  destruct (truthy (first_name u)) eqn:Hf, (truthy (last_name u)) eqn:Hl; simpl;
    try done.
  destruct (first_name u) as [f|]; [| done]. apply truthy_Some in Hf.
  apply bool_decide_eq_true. simpl. by apply append_non_empty.
Qed.

(** X8.  With [expires_in] set to [n], reading [expires_at] when the clock
    shows [read] raises [OverflowError] exactly when [read] plus [n] seconds
    is before 0001-01-01T00:00:00 or after 9999-12-31T23:59:59.999999, and
    returns exactly [read] plus [n] seconds otherwise; it raises nothing
    else and never returns [None].  So two reads that both return differ
    by exactly the time between them. *)
Theorem expires_at_overflows_exactly_out_of_range
    (tok : OAuthToken) (n : Z) (read : datetime) :
  datetime_in_range read = true → expires_in tok = Some n →
  (expires_at tok read = inl OverflowError ↔
     read + n * 1000000 < 0 ∨ 315537897599999999 < read + n * 1000000) ∧
  (expires_at tok read = inr (Some (read + n * 1000000)) ↔
     0 ≤ read + n * 1000000 ≤ 315537897599999999) ∧
  (∀ r : exn + option datetime, expires_at tok read = r →
     r = inl OverflowError ∨ r = inr (Some (read + n * 1000000))) ∧
  (∀ (read' at1 at2 : datetime),
     datetime_in_range read' = true →
     expires_at tok read = inr (Some at1) → expires_at tok read' = inr (Some at2) →
     at2 - at1 = read' - read).
Proof.
  intros Hread Hn.
  assert (∀ now : datetime, datetime_in_range now = true →
            (0 ≤ now + n * 1000000 ≤ 315537897599999999 ∧
             expires_at tok now = inr (Some (now + n * 1000000))) ∨
            (¬ (0 ≤ now + n * 1000000 ≤ 315537897599999999) ∧
             expires_at tok now = inl OverflowError)) as Hcases.
  { intros now Hnow.
    destruct (decide (0 ≤ now + n * 1000000 ≤ 315537897599999999)) as [Hin | Hout].
    - left. split; [done |]. exact (expires_at_within _ _ _ Hnow Hn Hin).
    - right. split; [done |]. exact (expires_at_beyond _ _ _ Hn Hout). }
  destruct (Hcases read Hread) as [[Hin Heq] | [Hout Heq]].
  - split; [| split; [| split]].
    + split; [congruence | lia].
    + split; [done | by intros _].
    + intros r <-. by right.
    + intros read' at1 at2 Hread' H1 H2.
      destruct (Hcases read' Hread') as [[_ Heq'] | [_ Heq']]; [| congruence].
      rewrite Heq in H1. rewrite Heq' in H2.
      injection H1 as <-. injection H2 as <-. lia.
  - split; [| split; [| split]].
    + split; [lia | done].
    + split; [congruence | lia].
    + intros r <-. by left.
    + intros read' at1 at2 _ H1 _. congruence.
Qed.

Lemma expires_at_overflows_exactly_out_of_range_witness :
  let tok := Samples.built_token (Some 3600) in
  let read := MoreSamples.november_2026 in
  (expires_at tok read = inl OverflowError ↔
     read + 3600 * 1000000 < 0 ∨ 315537897599999999 < read + 3600 * 1000000) ∧
  (expires_at tok read = inr (Some (read + 3600 * 1000000)) ↔
     0 ≤ read + 3600 * 1000000 ≤ 315537897599999999) ∧
  (∀ r : exn + option datetime, expires_at tok read = r →
     r = inl OverflowError ∨ r = inr (Some (read + 3600 * 1000000))) ∧
  (∀ (read' at1 at2 : datetime),
     datetime_in_range read' = true →
     expires_at tok read = inr (Some at1) → expires_at tok read' = inr (Some at2) →
     at2 - at1 = read' - read).
Proof.
  apply (expires_at_overflows_exactly_out_of_range
           (Samples.built_token (Some 3600)) 3600 MoreSamples.november_2026);
    reflexivity.
Defined.

(** X9.  [OAuthState] fixes [created_at] when it is built: with the keyword
    passed, the instance does not depend on the clock; without it,
    [created_at] is the clock at construction, so two instances built from
    the same keywords are equal exactly when they were built at the same
    clock reading. *)
Theorem OAuthState_created_at_default
    (kw : OAuthState_kwargs) (now1 now2 : datetime) (s1 s2 : OAuthState) :
  OAuthState_init kw now1 = inr s1 →
  OAuthState_init kw now2 = inr s2 →
  (∀ c : datetime, kw_created_at kw = Some c → created_at s1 = c ∧ s1 = s2) ∧
  (kw_created_at kw = None →
     created_at s1 = now1 ∧ created_at s2 = now2 ∧ (s1 = s2 ↔ now1 = now2)).
Proof.
  unfold OAuthState_init.
  destruct (kw_state kw) as [s|], (kw_st_provider kw) as [p|],
           (kw_redirect_uri kw) as [r|]; try discriminate.
  intros [= <-] [= <-]. split.
  - by intros c ->.
  - intros ->. simpl. repeat split; [by intros [= ->] | by intros ->].
Qed.

Lemma OAuthState_created_at_default_witness :
  let kw := {| kw_state := Some "nonce-1"; kw_st_provider := Some "github";
               kw_redirect_uri := Some "http://localhost/cb";
               kw_created_at := None; kw_next_url := None; kw_extra_data := None |} in
  let built now := {| state := "nonce-1"; st_provider := "github";
                      redirect_uri := "http://localhost/cb"; created_at := now;
                      next_url := None; extra_data := ∅ |} in
  created_at (built (Samples.at_second 1000)) = Samples.at_second 1000 ∧
  created_at (built (Samples.at_second 2000)) = Samples.at_second 2000 ∧
  (built (Samples.at_second 1000) = built (Samples.at_second 2000)
   ↔ Samples.at_second 1000 = Samples.at_second 2000).
Proof.
  intros kw built.
  apply (OAuthState_created_at_default kw (Samples.at_second 1000)
           (Samples.at_second 2000) (built (Samples.at_second 1000))
           (built (Samples.at_second 2000))); reflexivity.
Defined.

End TypesMore.

(** ** The collection hook of [conftest.py] *)

Section ConftestFacts.
Import PyStr Conftest.

Lemma prefix_spec (p s : string) :
  String.prefix p s = true ↔ ∃ post : string, s = p +:+ post.
Proof.
  revert s. induction p as [| a p IH]; intros s.
  - destruct s; simpl; split; eauto.
  - destruct s as [| b s]; simpl.
    + split; [done | by intros [post [=]]].
    + destruct (ascii_dec a b) as [-> | Hne].
      * rewrite IH. split; intros [post Hpost]; exists post; [by rewrite Hpost | by injection Hpost].
      * split; [done | intros [post [= ? _]]; done].
Qed.

(** [contains] is the substring test. *)
Lemma contains_spec (sub s : string) :
  contains sub s = true ↔ ∃ pre post : string, s = pre +:+ sub +:+ post.
Proof.
  induction s as [| b s IH]; cbn [contains].
  - rewrite orb_false_r, prefix_spec. split.
    + intros [post Hpost]. by exists "", post.
    + intros (pre & post & Heq). destruct pre; [by exists post | discriminate].
  - rewrite orb_true_iff, prefix_spec, IH. split.
    + intros [[post Hpost] | (pre & post & ->)].
      * by exists "", post.
      * by exists (String b pre), post.
    + intros (pre & post & Heq). destruct pre as [| c pre].
      * left. by exists post.
      * right. injection Heq as -> ->. by exists pre, post.
Qed.

(** What the loop body adds to an item. *)
Lemma modify_item_markers (it : item) :
  own_markers (modify_item it) =
    own_markers it
    ++ (if contains "unit" (fspath it) then ["unit"]
        else if contains "integration" (fspath it) then ["integration"] else [])
    ++ (if contains "providers" (fspath it) then ["provider"] else []).
Proof.
  unfold modify_item.
  destruct (contains "unit" (fspath it)), (contains "integration" (fspath it)); simpl;
    destruct (contains "providers" (fspath it)); simpl;
    by rewrite <- ?app_assoc, ?app_nil_r.
Qed.

Lemma modify_item_fspath (it : item) : fspath (modify_item it) = fspath it.
Proof.
  unfold modify_item.
  destruct (contains "unit" (fspath it)), (contains "integration" (fspath it)); simpl;
    by destruct (contains "providers" (fspath it)).
Qed.

(** X10.  The hook keeps the items, their order and their paths, and
    leaves each item with the markers it had followed by exactly these:
    [unit] when the path contains "unit", else [integration] when the path
    contains "integration"; and then [provider] when the path contains
    "providers".  Nothing else is added and nothing is added twice, so no
    item gets both [unit] and [integration] from the hook. *)
Theorem hook_appends_markers_by_path (items : list item) :
  Forall2
    (λ before after : item,
       fspath after = fspath before ∧
       ∃ added : list string,
         own_markers after = own_markers before ++ added ∧
         added =
           (if contains "unit" (fspath before) then ["unit"]
            else if contains "integration" (fspath before) then ["integration"]
            else [])
           ++ (if contains "providers" (fspath before) then ["provider"] else []) ∧
         ¬ ("unit" ∈ added ∧ "integration" ∈ added))
    items (pytest_collection_modifyitems items).
Proof.
  unfold pytest_collection_modifyitems.
  induction items as [| it items IH]; constructor; [| done].
  split; [apply modify_item_fspath |].
  eexists. split; [apply modify_item_markers |]. split; [reflexivity |].
  destruct (contains "unit" (fspath it)), (contains "integration" (fspath it)),
           (contains "providers" (fspath it)); simpl;
    rewrite ?elem_of_cons, ?elem_of_nil; intuition congruence.
Qed.

(** X11.  The path test is a substring test: an item whose path has "unit"
    anywhere in it, inside a longer word or in a directory above the
    project, is marked [unit], and the hook does not mark it [integration]
    even when its path contains "integration". *)
Theorem unit_substring_takes_precedence (it : item) (pre post : string) :
  fspath it = pre +:+ "unit" +:+ post →
  "unit" ∈ own_markers (modify_item it) ∧
  ("integration" ∈ own_markers (modify_item it) → "integration" ∈ own_markers it).
Proof.
  intros Hpath.
  assert (contains "unit" (fspath it) = true) as Hunit.
  { apply contains_spec. by exists pre, post. }
  rewrite modify_item_markers, Hunit, !elem_of_app.
  destruct (contains "providers" (fspath it)); simpl;
    rewrite ?elem_of_cons, ?elem_of_nil; split; intuition congruence.
Qed.

Lemma unit_substring_takes_precedence_witness :
  let it := {| fspath := "/home/dev/community/tests/integration/test_flow.py";
               own_markers := [] |} in
  "unit" ∈ own_markers (modify_item it) ∧
  ("integration" ∈ own_markers (modify_item it) → "integration" ∈ own_markers it).
Proof.
  intros it.
  apply (unit_substring_takes_precedence it "/home/dev/comm"
           "y/tests/integration/test_flow.py").
  reflexivity.
Defined.

End ConftestFacts.

(** ** [scripts/validate_tests.py] *)

Section ValidateTestsFacts.
Import PyStr ValidateTests.

(** The loop of [count_test_functions] in closed form. *)
Lemma foldl_count_node (nodes : list node) (acc : nat * nat) :
  foldl count_node acc nodes =
    ((acc.1 + length (filter (λ n, is_sync_test n = true) nodes))%nat,
     (acc.2 + length (filter (λ n, is_async_test n = true) nodes))%nat).
Proof.
  revert acc. induction nodes as [| n nodes IH]; intros [s a]; simpl.
  - f_equal; lia.
  - rewrite IH, !filter_cons.
    destruct n as [name decs | name decs | name |]; simpl;
      try (destruct (startswith name "test_")); simpl;
      try (destruct (existsb is_async_name decs)); simpl;
      repeat case_decide; try done; simpl; f_equal; lia.
Qed.

Lemma foldl_count_class (nodes : list node) (count : nat) :
  foldl count_class count nodes =
    (count + length (filter (λ n, is_test_class n = true) nodes))%nat.
Proof.
  revert count. induction nodes as [| n nodes IH]; intros count; simpl.
  - lia.
  - rewrite IH, filter_cons.
    destruct n as [name decs | name decs | name |]; simpl;
      try (destruct (startswith name "Test")); simpl;
      repeat case_decide; try done; simpl; lia.
Qed.

Lemma count_test_functions_closed (fs : filesystem) (p : path) :
  count_test_functions fs p =
    let s := length (filter (λ n, is_sync_test n = true) (nodes_of fs p)) in
    let a := length (filter (λ n, is_async_test n = true) (nodes_of fs p)) in
    {| sync := s; async := a; total := (s + a)%nat |}.
Proof.
  unfold count_test_functions, nodes_of.
  destruct (walk fs p) as [nodes|]; [| done]. simpl.
  by rewrite foldl_count_node.
Qed.

Lemma count_test_classes_closed (fs : filesystem) (p : path) :
  count_test_classes fs p = length (filter (λ n, is_test_class n = true) (nodes_of fs p)).
Proof.
  unfold count_test_classes, nodes_of.
  destruct (walk fs p) as [nodes|]; [| done]. simpl.
  by rewrite foldl_count_class.
Qed.

(** X12.  [count_test_functions] counts every function definition whose
    name starts with "test_" exactly once, wherever it is in the tree:
    [async def] ones (and plain ones decorated with the bare name [async])
    as async, the other plain ones as sync; classes and all other nodes are
    not counted, and a file that cannot be read or parsed counts as having
    none. *)
Theorem count_test_functions_counts_each_test_once (fs : filesystem) (p : path) :
  ∃ sync_tests async_tests : list node,
    filter (λ n, is_test_function n = true) (nodes_of fs p)
      ≡ₚ sync_tests ++ async_tests ∧
    sync (count_test_functions fs p) = length sync_tests ∧
    async (count_test_functions fs p) = length async_tests ∧
    total (count_test_functions fs p)
      = length (filter (λ n, is_test_function n = true) (nodes_of fs p)) ∧
    (∀ name decs, AsyncFunctionDef name decs ∈ sync_tests → False) ∧
    (walk fs p = None → total (count_test_functions fs p) = 0%nat).
Proof.
  exists (filter (λ n, is_sync_test n = true) (nodes_of fs p)),
         (filter (λ n, is_async_test n = true) (nodes_of fs p)).
  assert (filter (λ n, is_test_function n = true) (nodes_of fs p)
          ≡ₚ filter (λ n, is_sync_test n = true) (nodes_of fs p)
             ++ filter (λ n, is_async_test n = true) (nodes_of fs p)) as Hsplit.
  { induction (nodes_of fs p) as [| n nodes IH]; [done |].
    rewrite !filter_cons.
    destruct n as [name decs | name decs | name |]; simpl;
      try (destruct (startswith name "test_")); simpl;
      try (destruct (existsb is_async_name decs)); simpl;
      repeat case_decide; try done; simpl;
      rewrite IH; first [done | apply Permutation_middle]. }
  rewrite count_test_functions_closed. simpl. repeat split; try done.
  - by rewrite Hsplit, length_app.
  - intros name decs Hin. apply list_elem_of_filter in Hin as [Hin _]. done.
  - unfold nodes_of. by intros ->.
Qed.

(** X13.  The counts do not depend on the order in which the nodes are
    visited: two files whose node sequences are permutations of each other
    get the same function counts and the same class count. *)
Theorem counts_do_not_depend_on_walk_order
    (fs1 fs2 : filesystem) (p1 p2 : path) (nodes1 nodes2 : list node) :
  walk fs1 p1 = Some nodes1 → walk fs2 p2 = Some nodes2 → nodes1 ≡ₚ nodes2 →
  count_test_functions fs1 p1 = count_test_functions fs2 p2 ∧
  count_test_classes fs1 p1 = count_test_classes fs2 p2.
Proof.
  intros H1 H2 Hperm.
  rewrite !count_test_functions_closed, !count_test_classes_closed.
  unfold nodes_of. rewrite H1, H2. simpl. by rewrite !Hperm.
Qed.

Lemma counts_do_not_depend_on_walk_order_witness :
  count_test_functions (MoreSamples.checkout MoreSamples.walked) ["a.py"]
    = count_test_functions (MoreSamples.checkout MoreSamples.walked_otherwise) ["b.py"] ∧
  count_test_classes (MoreSamples.checkout MoreSamples.walked) ["a.py"]
    = count_test_classes (MoreSamples.checkout MoreSamples.walked_otherwise) ["b.py"].
Proof.
  apply (counts_do_not_depend_on_walk_order
           (MoreSamples.checkout MoreSamples.walked)
           (MoreSamples.checkout MoreSamples.walked_otherwise)
           ["a.py"] ["b.py"] MoreSamples.walked MoreSamples.walked_otherwise).
  - reflexivity.
  - reflexivity.
  - exact (Permutation_app_comm
             [OtherNode; ClassDef "TestThing"; FunctionDef "helper" [];
              FunctionDef "test_a" []]
             [AsyncFunctionDef "test_b" []; FunctionDef "test_c" [OtherExpr];
              ClassDef "Helper"]).
Defined.

(** What one round of the inner loop does to the three running values. *)
Lemma check_file_summary (fs : filesystem) (category : string) (res : results)
    (p : path) (description : string) :
  let res' := check_file fs category res (p, description) in
  missing_files res' = missing_files res ++ (if exists_ fs p then [] else [str p]) ∧
  total_tests res' =
    (total_tests res
     + if exists_ fs p && is_test_file p then total (count_test_functions fs p) else 0)%nat ∧
  total_classes res' =
    (total_classes res
     + if exists_ fs p && is_test_file p then count_test_classes fs p else 0)%nat.
Proof.
  unfold check_file.
  destruct (exists_ fs p), (is_test_file p); simpl;
    rewrite ?app_nil_r; repeat split; lia.
Qed.

Lemma check_files_summary (fs : filesystem) (category : string)
    (files : list (path * string)) (res : results) :
  let res' := foldl (check_file fs category) res files in
  missing_files res' =
    missing_files res ++ (str <$> filter (λ p, exists_ fs p = false) files.*1) ∧
  total_tests res' =
    (total_tests res
     + sum_list_with
         (λ p, if exists_ fs p && is_test_file p
               then total (count_test_functions fs p) else 0) files.*1)%nat ∧
  total_classes res' =
    (total_classes res
     + sum_list_with
         (λ p, if exists_ fs p && is_test_file p
               then count_test_classes fs p else 0) files.*1)%nat.
Proof.
  revert res. induction files as [| [p description] files IH]; intros res.
  - simpl. rewrite app_nil_r. repeat split; lia.
  - cbn [foldl]. rewrite fmap_cons. cbn [fst sum_list_with].
    destruct (IH (check_file fs category res (p, description))) as (Hm & Ht & Hc).
    destruct (check_file_summary fs category res p description) as (Hm1 & Ht1 & Hc1).
    cbv zeta in Hm, Ht, Hc, Hm1, Ht1, Hc1.
    rewrite Hm, Ht, Hc, Hm1, Ht1, Hc1, filter_cons. repeat split; [| lia | lia].
    rewrite <- app_assoc. f_equal.
    destruct (exists_ fs p); case_decide; done.
Qed.

Lemma check_categories_summary (fs : filesystem)
    (categories : list (string * list (path * string))) (res : results) :
  let paths := concat (map (λ entry, (entry.2).*1) categories) in
  let res' := foldl (check_category fs) res categories in
  missing_files res' =
    missing_files res ++ (str <$> filter (λ p, exists_ fs p = false) paths) ∧
  total_tests res' =
    (total_tests res
     + sum_list_with
         (λ p, if exists_ fs p && is_test_file p
               then total (count_test_functions fs p) else 0) paths)%nat ∧
  total_classes res' =
    (total_classes res
     + sum_list_with
         (λ p, if exists_ fs p && is_test_file p
               then count_test_classes fs p else 0) paths)%nat.
Proof.
  revert res. induction categories as [| [category files] categories IH]; intros res.
  - simpl. rewrite app_nil_r. repeat split; lia.
  - cbn [foldl map concat snd].
    destruct (IH (check_category fs res (category, files))) as (Hm & Ht & Hc).
    cbv zeta in Hm, Ht, Hc. rewrite Hm, Ht, Hc. clear Hm Ht Hc.
    unfold check_category.
    match goal with
    | |- context [foldl (check_file fs category) ?r files] =>
        destruct (check_files_summary fs category files r) as (Hm1 & Ht1 & Hc1)
    end.
    cbv zeta in Hm1, Ht1, Hc1. cbn [missing_files total_tests total_classes] in Hm1, Ht1, Hc1.
    rewrite Hm1, Ht1, Hc1, filter_app, fmap_app, !sum_list_with_app.
    repeat split; [| lia | lia]. by rewrite <- app_assoc.
Qed.

Lemma name_of_app (l l' : path) : l' ≠ [] → name_of (l ++ l') = name_of l'.
Proof.
  intros Hne. unfold name_of. induction l as [| x l IH]; [done |].
  simpl. rewrite IH. destruct (l ++ l') eqn:Happ; [| done].
  apply app_eq_nil in Happ as [_ ->]. done.
Qed.

Lemma missing_files_closed
    (fs : filesystem) (project_root : path) :
  missing_files (validate_test_structure fs project_root)
    = str <$> filter (λ p, exists_ fs p = false) (required_paths project_root).
Proof.
  unfold validate_test_structure.
  match goal with
  | |- context [foldl (check_category fs) ?r (required project_root)] =>
      destruct (check_categories_summary fs (required project_root) r) as (Hm & _)
  end.
  exact Hm.
Qed.

Lemma is_test_file_app (l l' : path) :
  l' ≠ [] → is_test_file (l ++ l') = is_test_file l'.
Proof. intros Hne. unfold is_test_file, suffix. by rewrite name_of_app. Qed.

Lemma required_paths_eq (project_root : path) :
  required_paths project_root =
    [ (project_root ++ ["src"; "litestar_oauth"; "testing"]) ++ ["__init__.py"];
      (project_root ++ ["src"; "litestar_oauth"; "testing"]) ++ ["mocks.py"];
      (project_root ++ ["src"; "litestar_oauth"; "testing"]) ++ ["fixtures.py"];
      (project_root ++ ["tests"]) ++ ["conftest.py"];
      (project_root ++ ["tests"]) ++ ["unit"; "test_types.py"];
      (project_root ++ ["tests"]) ++ ["unit"; "test_exceptions.py"];
      (project_root ++ ["tests"]) ++ ["unit"; "test_base.py"];
      (project_root ++ ["tests"]) ++ ["unit"; "test_service.py"];
      (project_root ++ ["tests"]) ++ ["unit"; "providers"; "test_github.py"];
      (project_root ++ ["tests"]) ++ ["unit"; "providers"; "test_google.py"];
      (project_root ++ ["tests"]) ++ ["unit"; "providers"; "test_discord.py"];
      (project_root ++ ["tests"]) ++ ["integration"; "test_litestar_plugin.py"] ].
Proof. reflexivity. Qed.

Lemma is_test_file_init (dir : path) :
  is_test_file (dir ++ ["__init__.py"]) = false.
Proof. rewrite is_test_file_app by discriminate. by vm_compute. Qed.

Lemma is_test_file_mocks (dir : path) :
  is_test_file (dir ++ ["mocks.py"]) = false.
Proof. rewrite is_test_file_app by discriminate. by vm_compute. Qed.

Lemma is_test_file_fixtures (dir : path) :
  is_test_file (dir ++ ["fixtures.py"]) = false.
Proof. rewrite is_test_file_app by discriminate. by vm_compute. Qed.

Lemma is_test_file_conftest (dir : path) :
  is_test_file (dir ++ ["conftest.py"]) = false.
Proof. rewrite is_test_file_app by discriminate. by vm_compute. Qed.

Lemma is_test_file_types (dir : path) :
  is_test_file (dir ++ ["unit"; "test_types.py"]) = true.
Proof. rewrite is_test_file_app by discriminate. by vm_compute. Qed.

Lemma is_test_file_exceptions (dir : path) :
  is_test_file (dir ++ ["unit"; "test_exceptions.py"]) = true.
Proof. rewrite is_test_file_app by discriminate. by vm_compute. Qed.

Lemma is_test_file_base (dir : path) :
  is_test_file (dir ++ ["unit"; "test_base.py"]) = true.
Proof. rewrite is_test_file_app by discriminate. by vm_compute. Qed.

Lemma is_test_file_service (dir : path) :
  is_test_file (dir ++ ["unit"; "test_service.py"]) = true.
Proof. rewrite is_test_file_app by discriminate. by vm_compute. Qed.

Lemma is_test_file_github (dir : path) :
  is_test_file (dir ++ ["unit"; "providers"; "test_github.py"]) = true.
Proof. rewrite is_test_file_app by discriminate. by vm_compute. Qed.

Lemma is_test_file_google (dir : path) :
  is_test_file (dir ++ ["unit"; "providers"; "test_google.py"]) = true.
Proof. rewrite is_test_file_app by discriminate. by vm_compute. Qed.

Lemma is_test_file_discord (dir : path) :
  is_test_file (dir ++ ["unit"; "providers"; "test_discord.py"]) = true.
Proof. rewrite is_test_file_app by discriminate. by vm_compute. Qed.

Lemma is_test_file_plugin (dir : path) :
  is_test_file (dir ++ ["integration"; "test_litestar_plugin.py"]) = true.
Proof. rewrite is_test_file_app by discriminate. by vm_compute. Qed.

(** X14.  [missing_files] lists exactly the required files that do not
    exist, each once, in the order of the table; every other required file
    is reported as existing, twelve in all. *)
Theorem missing_files_are_the_absent_required_files
    (fs : filesystem) (project_root : path) :
  missing_files (validate_test_structure fs project_root)
    = str <$> filter (λ p, exists_ fs p = false) (required_paths project_root) ∧
  (length (missing_files (validate_test_structure fs project_root))
   + length (filter (λ p, exists_ fs p = true) (required_paths project_root)) = 12)%nat.
Proof.
  pose proof (missing_files_closed fs project_root) as Hm.
  split; [exact Hm |]. rewrite Hm, length_fmap. clear Hm.
  assert (length (required_paths project_root) = 12%nat) as <- by reflexivity.
  induction (required_paths project_root) as [| p paths IH]; [done |].
  rewrite !filter_cons. destruct (exists_ fs p); repeat case_decide; try done; simpl; lia.
Qed.

(** X15.  [total_tests] and [total_classes] add up the counts of the eight
    required files whose name contains "test_", each when it exists;
    [conftest.py] and the three files of the testing package are never
    counted, whatever they contain. *)
Theorem totals_count_the_test_files_only (fs : filesystem) (project_root : path) :
  total_tests (validate_test_structure fs project_root)
    = sum_list_with
        (λ p, if exists_ fs p then total (count_test_functions fs p) else 0%nat)
        (test_files project_root) ∧
  total_classes (validate_test_structure fs project_root)
    = sum_list_with
        (λ p, if exists_ fs p then count_test_classes fs p else 0%nat)
        (test_files project_root) ∧
  test_files project_root
    = List.filter is_test_file (required_paths project_root).
Proof.
  unfold validate_test_structure.
  match goal with
  | |- context [foldl (check_category fs) ?r (required project_root)] =>
      destruct (check_categories_summary fs (required project_root) r) as (_ & Ht & Hc)
  end.
  cbv zeta in Ht, Hc. cbn [total_tests total_classes] in Ht, Hc.
  rewrite Ht, Hc. clear Ht Hc.
  change (concat (map _ (required project_root))) with (required_paths project_root).
  rewrite required_paths_eq. unfold test_files.
  cbn [sum_list_with List.filter].
  rewrite !is_test_file_init, !is_test_file_mocks, !is_test_file_fixtures,
    !is_test_file_conftest, !is_test_file_types, !is_test_file_exceptions,
    !is_test_file_base, !is_test_file_service, !is_test_file_github,
    !is_test_file_google, !is_test_file_discord, !is_test_file_plugin.
  rewrite !andb_true_r, !andb_false_r.
  repeat split; lia.
Qed.

(** X16.  The script fails exactly when a required file is missing: [main]
    exits with status 1 when some required file does not exist and ends
    normally otherwise, the printed status is FAIL in the first case and
    PASS in the second, and neither depends on the contents of any file or
    on the target of 200 tests. *)
Theorem main_fails_iff_a_required_file_is_missing
    (fs : filesystem) (project_root : path) :
  (main fs project_root = 1 ↔
     ∃ p : path, p ∈ required_paths project_root ∧ exists_ fs p = false) ∧
  (main fs project_root = 0 ↔
     ∀ p : path, p ∈ required_paths project_root → exists_ fs p = true) ∧
  (validation_status (validate_test_structure fs project_root) = "FAIL" ↔
     main fs project_root = 1) ∧
  (validation_status (validate_test_structure fs project_root) = "PASS" ↔
     main fs project_root = 0).
Proof.
  unfold main, validation_status.
  rewrite (missing_files_closed fs project_root).
  destruct (filter (λ p, exists_ fs p = false) (required_paths project_root))
    as [| q absent] eqn:Habsent; simpl.
  - assert (∀ p, p ∈ required_paths project_root → exists_ fs p = true) as Hall.
    { intros p Hp. destruct (exists_ fs p) eqn:Hex; [done |].
      assert (p ∈ filter (λ p, exists_ fs p = false) (required_paths project_root)) as Hin
        by by apply list_elem_of_filter.
      rewrite Habsent in Hin. by apply elem_of_nil in Hin. }
    repeat split; try done.
    intros (p & Hp & Hex). rewrite (Hall p Hp) in Hex. done.
  - assert (q ∈ required_paths project_root ∧ exists_ fs q = false) as [Hq Hex].
    { assert (q ∈ filter (λ p, exists_ fs p = false) (required_paths project_root)) as Hin
        by (rewrite Habsent; apply elem_of_cons; by left).
      apply list_elem_of_filter in Hin. tauto. }
    repeat split; try done.
    + by exists q.
    + intros Hall. rewrite (Hall q Hq) in Hex. done.
Qed.

(** Every required file present but [mocks.py], seven nodes per file: the
    script fails although tests are found; with nothing missing it would
    pass although the count is far below the target. *)
Example main_on_a_checkout_without_mocks :
  main (MoreSamples.checkout MoreSamples.walked) ["repo"] = 1 ∧
  missing_files (validate_test_structure (MoreSamples.checkout MoreSamples.walked) ["repo"])
    = ["repo/src/litestar_oauth/testing/mocks.py"] ∧
  total_tests (validate_test_structure (MoreSamples.checkout MoreSamples.walked) ["repo"])
    = 24%nat ∧
  meets_target (validate_test_structure (MoreSamples.checkout MoreSamples.walked) ["repo"])
    = false ∧
  main {| exists_ := λ _, true; walk := λ _, None |} ["repo"] = 0.
Proof. by vm_compute. Qed.

End ValidateTestsFacts.
